(** * Video service: upload validation and the processing pipeline

  Shallow embedding of
    - [src/utils/validators.py]       ([validate_video_file],
                                       [validate_video_metadata]),
    - [src/models/video.py]           ([Video], [VideoMetadata], [VideoVariant],
                                       [add_variant]),
    - [src/services/storage_service.py] ([upload_variant]),
    - [src/services/video_processing_service.py]
      ([retry], [process_video], [validate_format], [scan_security],
       [generate_variant]).

  Byte buffers are [list byte]. A Python [str] is the [string] of its
  UTF-8 bytes: membership and [rfind] of an ASCII character, slicing at
  an index so found, equality and concatenation are the same on the
  bytes as on the text, and these are the only operations the embedded
  code applies to a [str] apart from [str.lower()], which depends on the
  Unicode tables and is a parameter; the colour codes of
  [validate_hex_color], whose characters are counted, are lists of code
  points. Dictionaries keyed by strings are
  [gmap string _], and the coroutines are run sequentially in a state and
  exception monad whose state holds the mutated [Video] object and the
  log of the calls made to external collaborators. *)

From Stdlib Require Import ZArith QArith Qround Ascii String Strings.Byte DecimalString List Lia.
From stdpp Require Import gmap strings list fin_maps.

Local Open Scope Z_scope.

(** ** Python helpers on [bytes] and [str] *)

Module Py.

Abbreviation bytes := (list byte).

Fixpoint bytes_eqb (a b : bytes) : bool :=
  match a, b with
  | [], [] => true
  | x :: a', y :: b' => Byte.eqb x y && bytes_eqb a' b'
  | _, _ => false
  end.

(** [b.startswith(p)] *)
Fixpoint startswith (b p : bytes) : bool :=
  match p, b with
  | [], _ => true
  | _ :: _, [] => false
  | y :: p', x :: b' => Byte.eqb x y && startswith b' p'
  end.

(** [b[-n:]] for [n > 0]: the last [n] bytes, or all of [b] when it is
    shorter. *)
Definition last_n (n : nat) (b : bytes) : bytes :=
  drop (length b - n)%nat b.

(** [b[:n]] *)
Definition first_n (n : nat) (b : bytes) : bytes := take n b.

(** [b.endswith(t)] *)
Definition endswith (b t : bytes) : bool :=
  (length t <=? length b)%nat && bytes_eqb (last_n (length t) b) t.

(** [any(p(x) for x in xs)] *)
Definition any {A} (p : A -> bool) (xs : list A) : bool := existsb p xs.

(** [c in s] for a one-character [c] *)
Fixpoint contains_char (c : ascii) (s : string) : bool :=
  match s with
  | EmptyString => false
  | String a s' => Ascii.eqb a c || contains_char c s'
  end.

Fixpoint rfind_from (c : ascii) (s : string) (i : Z) (found : Z) : Z :=
  match s with
  | EmptyString => found
  | String a s' => rfind_from c s' (i + 1) (if Ascii.eqb a c then i else found)
  end.

(** [s.rfind(c)]: the highest index of [c], or [-1]. *)
Definition rfind (c : ascii) (s : string) : Z := rfind_from c s 0 (-1).

Fixpoint drop_str (n : nat) (s : string) : string :=
  match n, s with
  | O, _ => s
  | S n', String _ s' => drop_str n' s'
  | S _, EmptyString => EmptyString
  end.

(** [s[i:]] for [i >= 0] *)
Definition slice_from (i : Z) (s : string) : string := drop_str (Z.to_nat i) s.

Definition lower_ascii (a : ascii) : ascii :=
  let n := nat_of_ascii a in
  if ((65 <=? n) && (n <=? 90))%nat then ascii_of_nat (n + 32) else a.

(** What [s.lower()] gives for a [str] of ASCII characters. On other
    text [str.lower()] follows the Unicode tables and is not this
    function. *)
Fixpoint ascii_lower (s : string) : string :=
  match s with
  | EmptyString => EmptyString
  | String a s' => String (lower_ascii a) (ascii_lower s')
  end.

(** [x in xs] for a list of strings *)
Definition str_in (x : string) (xs : list string) : bool :=
  existsb (String.eqb x) xs.

(** [sep.join(xs)] *)
Fixpoint join (sep : string) (xs : list string) : string :=
  match xs with
  | [] => ""
  | [x] => x
  | x :: xs' => x +:+ sep +:+ join sep xs'
  end.

End Py.

(** ** Python values, exceptions and the effect monad *)

Module Runtime.
Import Py.

(** JSON-like values held by the [Dict] fields of the models. A timestamp
    ([datetime.utcnow()], possibly rendered by [isoformat()]) is a tick of
    the logical clock of the run. *)
#[warnings="-register-all"]
Inductive PyVal :=
| VNone
| VBool (b : bool)
| VInt (z : Z)
| VNum (q : Q)
| VStr (s : string)
| VTime (t : nat)
| VDict (items : list (string * PyVal)).

(** An exception object: its class and the text [str(e)] gives. Every
    exception of the model derives from [Exception], so that
    [except Exception] catches it; the cancellation of a task
    ([asyncio.CancelledError], a [BaseException]) is not modelled. *)
Record PyExc := Exc { exc_class : string; exc_msg : string }.

Definition ValueError (msg : string) : PyExc := Exc "ValueError" msg.
Definition ValidationError (msg : string) : PyExc := Exc "ValidationError" msg.
Definition TypeError (msg : string) : PyExc := Exc "TypeError" msg.
Definition AttributeError (msg : string) : PyExc := Exc "AttributeError" msg.

(** [str(e)] *)
Definition str_exc (e : PyExc) : string := exc_msg e.

(** Calls that leave the process, in the order they are made. *)
Inductive Event :=
| EvMagic (buf : bytes)
| EvProbe
| EvScan
| EvTranscode (quality : string)
| EvUpload (key : string)
| EvCleanup (video_id : string)
| EvSleep (delay : Z)
| EvLogInfo (msg : string)
| EvLogError (msg : string).

Definition is_magic (e : Event) : bool :=
  match e with EvMagic _ => true | _ => false end.
Definition is_scan (e : Event) : bool :=
  match e with EvScan => true | _ => false end.
Definition is_transcode (e : Event) : bool :=
  match e with EvTranscode _ => true | _ => false end.
Definition is_upload (e : Event) : bool :=
  match e with EvUpload _ => true | _ => false end.
Definition is_cleanup (e : Event) : bool :=
  match e with EvCleanup _ => true | _ => false end.
Definition is_sleep (e : Event) : bool :=
  match e with EvSleep _ => true | _ => false end.

(** The events of the two gates, validation and scan, with the
    information-level log line. *)
Definition gate_event (e : Event) : bool :=
  match e with
  | EvMagic _ | EvProbe | EvScan | EvLogInfo _ => true
  | _ => false
  end.

(** The events of the transcode and upload of a variant. *)
Definition work_event (e : Event) : bool :=
  match e with
  | EvTranscode _ | EvUpload _ | EvSleep _ | EvLogInfo _ | EvLogError _ => true
  | _ => false
  end.

(** [count p evs]: how many events of [evs] satisfy [p]. *)
Definition count (p : Event -> bool) (evs : list Event) : nat :=
  length (filter (fun e => p e = true) evs).

Section Monad.
Context {S : Type}.

(** A computation over a state [S] that returns or raises. *)
Definition M (A : Type) : Type := S -> (PyExc + A) * S.

Definition ret {A} (a : A) : M A := fun s => (inr a, s).
Definition raise {A} (e : PyExc) : M A := fun s => (inl e, s).
Definition bind {A B} (m : M A) (k : A -> M B) : M B :=
  fun s => match m s with
           | (inr a, s') => k a s'
           | (inl e, s') => (inl e, s')
           end.

(** [try: m  except Exception as e: h e]; every exception of the model
    is an [Exception]. *)
Definition try_except {A} (m : M A) (h : PyExc -> M A) : M A :=
  fun s => match m s with
           | (inr a, s') => (inr a, s')
           | (inl e, s') => h e s'
           end.

Definition get : M S := fun s => (inr s, s).
Definition modify (f : S -> S) : M unit := fun s => (inr tt, f s).

(** [for x in xs: body x] *)
Fixpoint for_each {A} (xs : list A) (body : A -> M unit) : M unit :=
  match xs with
  | [] => ret tt
  | x :: xs' => bind (body x) (fun _ => for_each xs' body)
  end.

End Monad.

Declare Scope py_scope.
Delimit Scope py_scope with py.
Notation "'await' p <- m ; k" := (bind m (fun x => match x with p => k end))
  (at level 10, p pattern, m at level 100, k at level 200,
   format "'[v' 'await'  p  <-  m ; '/' k ']'") : py_scope.

End Runtime.

(** ** [utils/validators.py] *)

Module Validators.
Import Py Runtime.

Definition ALLOWED_VIDEO_FORMATS : list string := [".mp4"; ".mov"; ".avi"; ".mkv"].
Definition MAX_VIDEO_SIZE_BYTES : Z := 5368709120.
Definition VALID_MIME_TYPES : list string :=
  ["video/mp4"; "video/quicktime"; "video/x-msvideo"; "video/x-matroska"].

(** The metadata dictionary returned to the caller. *)
Abbreviation MetaDict := (gmap string PyVal).

(** [magic.from_buffer(buf, mime=True)] is libmagic: it either answers a
    MIME type or raises. It is a parameter of the model. *)
Inductive MagicResult :=
| MimeType (m : string)
| MagicRaises (e : PyExc).

Definition header_000 : bytes := [x00; x00; x00].
Definition header_001 : bytes := [x00; x00; x01].
Definition term_mdat : bytes := [x6d; x64; x61; x74].
Definition term_moov : bytes := [x6d; x6f; x6f; x76].

(** [filename[filename.rfind('.'):].lower() if '.' in filename else ''];
    [str_lower] is [str.lower]. *)
Definition file_ext (str_lower : string -> string) (filename : string) : string :=
  if contains_char "." filename
  then str_lower (slice_from (rfind "." filename) filename)
  else "".

(** The function that the statement [def validate_video_file(...)]
    builds. The decorator above the [def] then wraps it: this function
    is what the wrapper holds in its attribute [wrapped]. *)
Definition validate_video_file_wrapped
    (str_lower : string -> string)
    (magic_from_buffer : bytes -> MagicResult)
    (file_content : bytes) (filename : string) (strict_validation : bool)
  : bool * string * MetaDict :=
  match file_content with
  | [] => (false, "Empty file content", ∅)
  | _ :: _ =>
    let file_size := Z.of_nat (length file_content) in
    if MAX_VIDEO_SIZE_BYTES <? file_size then
      (false, "File size exceeds maximum limit of 5.0GB",
       {[ "size" := VInt file_size ]})
    else
    let ext := file_ext str_lower filename in
    if negb (str_in ext ALLOWED_VIDEO_FORMATS) then
      (false,
       "Unsupported file format. Allowed formats: " +:+ join ", " ALLOWED_VIDEO_FORMATS,
       {[ "extension" := VStr ext ]})
    else
    match magic_from_buffer (first_n 2048 file_content) with
    | MagicRaises e => (false, "Failed to detect MIME type: " +:+ str_exc e, ∅)
    | MimeType mime_type =>
      if negb (str_in mime_type VALID_MIME_TYPES) then
        (false, "Invalid MIME type: " +:+ mime_type,
         {[ "mime_type" := VStr mime_type ]})
      else
      if negb (startswith file_content header_000 || startswith file_content header_001) then
        (false, "Invalid video file header", ∅)
      else
      let metadata : MetaDict :=
        <[ "mime_type" := VStr mime_type ]>
          (<[ "extension" := VStr ext ]> {[ "size" := VInt file_size ]}) in
      if strict_validation then
        if file_size <? 1024 then
          (false, "File too small to be a valid video", metadata)
        else
        if negb (any (fun term => endswith (last_n 32 file_content) term)
                     [term_mdat; term_moov]) then
          (false, "Invalid video file termination", metadata)
        else (true, "", metadata)
      else (true, "", metadata)
    end
  end.

(** What calling a module-level name decorated with pydantic's
    [@validator(...)] raises. [validator] does not return a function: it
    returns the descriptor proxy that a model class would collect, and
    the proxy defines no [__call__]. *)
Definition not_callable : PyExc :=
  TypeError "'PydanticDescriptorProxy' object is not callable".

(** The name [validate_video_file] of the module, as [models/video.py]
    imports it: [@validator('file_content', pre=True)] is applied to the
    [def], so every call of the name raises, whatever the arguments. *)
Definition validate_video_file
    (file_content : bytes) (filename : string) (strict_validation : bool)
  : PyExc + (bool * string * MetaDict) :=
  inl not_callable.

(** The name [validate_video_metadata] of the module, decorated the same
    way with [@validator('metadata', pre=True)]. *)
Definition validate_video_metadata (metadata : MetaDict)
  : PyExc + (bool * string * MetaDict) :=
  inl not_callable.

End Validators.

(** ** [models/video.py] *)

Module VideoModel.
Import Py Runtime.

Definition VIDEO_STATUS : list string :=
  ["pending"; "scanning"; "processing"; "converting"; "ready"; "failed"].
Definition VIDEO_VARIANTS : list string :=
  ["original"; "hd_1080p"; "sd_720p"; "mobile_480p"; "thumbnail"].
Definition ALLOWED_VIDEO_FORMATS : list string := ["mp4"; "mov"; "avi"; "webm"].
Definition ALLOWED_VIDEO_CODECS : list string := ["h264"; "h265"; "vp8"; "vp9"].
Definition MAX_VIDEO_SIZE_BYTES : Z := 5368709120.
Definition MIN_FPS : Q := 24 # 1.
Definition MAX_FPS : Q := 240 # 1.

Record VideoMetadata := {
  duration : Q;
  width : Z;
  height : Z;
  fps : Q;
  codec : string;
  size_bytes : Z;
  format : string;
  checksum : string;
  virus_scanned : bool;
  content_safe : bool
}.

(** [metadata.dict()] *)
Definition metadata_dict (m : VideoMetadata) : PyVal :=
  VDict [("duration", VNum (duration m)); ("width", VInt (width m));
         ("height", VInt (height m)); ("fps", VNum (fps m));
         ("codec", VStr (codec m)); ("size_bytes", VInt (size_bytes m));
         ("format", VStr (format m)); ("checksum", VStr (checksum m));
         ("virus_scanned", VBool (virus_scanned m));
         ("content_safe", VBool (content_safe m))].

(** The dictionary [VideoMetadata.validate] hands to
    [validate_video_metadata]. *)
Definition metadata_fields (m : VideoMetadata) : gmap string PyVal :=
  <[ "duration" := VNum (duration m) ]>
  (<[ "codec" := VStr (codec m) ]>
  (<[ "width" := VInt (width m) ]>
  (<[ "height" := VInt (height m) ]>
  (<[ "fps" := VNum (fps m) ]>
  (<[ "size_bytes" := VInt (size_bytes m) ]>
  (<[ "format" := VStr (format m) ]> ∅)))))).

(** [VideoMetadata.validate(self)]. Its last check calls the name
    [validate_video_metadata] imported from [utils/validators.py], inside
    the [try] of the method. *)
Definition VideoMetadata_validate (m : VideoMetadata) : bool * string :=
  if negb (str_in (format m) ALLOWED_VIDEO_FORMATS) then
    (false, "Unsupported video format: " +:+ format m)
  else if negb (str_in (codec m) ALLOWED_VIDEO_CODECS) then
    (false, "Unsupported codec: " +:+ codec m)
  else if MAX_VIDEO_SIZE_BYTES <? size_bytes m then
    (false, "Video size exceeds maximum limit of 5.0GB")
  else if negb (Qle_bool MIN_FPS (fps m) && Qle_bool (fps m) MAX_FPS) then
    (false, "FPS must be between 24.0 and 240.0")
  else if (width m <=? 0) || (height m <=? 0) ||
          (7680 <? width m) || (4320 <? height m) then
    (false, "Invalid resolution dimensions")
  else
    match Validators.validate_video_metadata (metadata_fields m) with
    | inl e => (false, "Validation error: " +:+ str_exc e)
    | inr (is_valid, error_msg, _) =>
      if negb is_valid then (false, error_msg) else (true, "")
    end.

Record VideoVariant := {
  quality : string;
  url : string;
  metadata : VideoMetadata;
  created_at : nat;
  cdn_provider : string;
  delivery_config : list (string * PyVal)
}.

(** The fields of [Video] that the processing pipeline reads or writes.
    [user_id], [title], [description], [metadata], [annotations],
    [created_at], [updated_at] and [security_scan_results] are neither
    read nor written by it. *)
Record Video := {
  id : string;
  status : string;
  variants : list VideoVariant;
  processing_history : gmap string PyVal
}.

(** The mutable objects of one run: the [Video] passed to the pipeline,
    the logical clock behind [datetime.utcnow()], and the external calls
    made so far. *)
Record World := {
  video : Video;
  clock : nat;
  trace : list Event
}.

Definition set_status (s : string) (v : Video) : Video :=
  {| id := id v; status := s; variants := variants v;
     processing_history := processing_history v |}.
Definition append_variant (x : VideoVariant) (v : Video) : Video :=
  {| id := id v; status := status v; variants := variants v ++ [x];
     processing_history := processing_history v |}.
Definition set_history (k : string) (x : PyVal) (v : Video) : Video :=
  {| id := id v; status := status v; variants := variants v;
     processing_history := <[ k := x ]> (processing_history v) |}.
Definition with_video (f : Video -> Video) (w : World) : World :=
  {| video := f (video w); clock := clock w; trace := trace w |}.

(** [datetime.utcnow()] *)
Definition utcnow : M (S := World) nat :=
  fun w => (inr (clock w),
            {| video := video w; clock := Datatypes.S (clock w); trace := trace w |}).

(** Records an external call; the result is the position of the call in
    the trace, which is what the answers of the collaborators may depend
    on. *)
Definition emit (e : Event) : M (S := World) nat :=
  fun w => (inr (length (trace w)),
            {| video := video w; clock := clock w; trace := trace w ++ [e] |}).

(** [d.get(k)] on a dictionary literal *)
Fixpoint dict_get (k : string) (d : list (string * PyVal)) : option PyVal :=
  match d with
  | [] => None
  | (k', x) :: d' => if String.eqb k k' then Some x else dict_get k d'
  end.

Local Open Scope py_scope.

(** [Video.add_variant(quality, url, metadata, delivery_config)]. [url] is
    [None] when the caller passes the [Optional[str]] of a failed upload;
    the [str] field of [VideoVariant] refuses it. *)
Definition add_variant (quality : string) (url : option string)
    (metadata : VideoMetadata) (delivery_config : list (string * PyVal))
  : M (S := World) VideoVariant :=
  if negb (str_in quality VIDEO_VARIANTS) then
    raise (ValueError ("Invalid quality variant: " +:+ quality))
  else
    match url, default (VStr "default") (dict_get "provider" delivery_config) with
    | Some url, VStr provider =>
      await now <- utcnow;
      let variant := {| quality := quality; url := url; metadata := metadata;
                        created_at := now; cdn_provider := provider;
                        delivery_config := delivery_config |} in
      await _ <- modify (with_video (append_variant variant));
      await stamp <- utcnow;
      await _ <- modify (with_video (set_history
                   ("variant_" +:+ quality +:+ "_added")
                   (VDict [("timestamp", VTime stamp);
                           ("metadata", metadata_dict metadata)])));
      ret variant
    | _, _ => raise (ValidationError "validation error for VideoVariant")
    end.

(** Modelled from the spec: [Video.update_status(status)] is called by
    [process_video] but [models/video.py] does not define it. The spec
    has [status] range over the six values of [VIDEO_STATUS] and has a
    status transition record the stage-entry timestamp in
    [processing_history]; the repository's [update_status] files that
    entry under the status name. The only argument the pipeline passes is
    the status name. *)
Definition update_status (new_status : string) : M (S := World) unit :=
  if negb (str_in new_status VIDEO_STATUS) then
    raise (ValueError "Invalid status")
  else
    await _ <- modify (with_video (set_status new_status));
    await stamp <- utcnow;
    modify (with_video (set_history new_status (VDict [("timestamp", VTime stamp)]))).

End VideoModel.

(** ** [services/storage_service.py] and [services/video_processing_service.py] *)

Module Service.
Import Py Runtime Validators VideoModel.

Definition SUPPORTED_MIME_TYPES : list string :=
  ["video/mp4"; "video/quicktime"; "video/x-msvideo"; "video/x-matroska"].

Record VariantConfig := {
  cfg_width : Z;
  cfg_height : Z;
  cfg_bitrate : string;
  cfg_fps : Z
}.

(** [VARIANT_CONFIGS.items()], in insertion order. *)
Definition VARIANT_CONFIGS : list (string * VariantConfig) :=
  [("hd", {| cfg_width := 1920; cfg_height := 1080; cfg_bitrate := "5000k"; cfg_fps := 30 |});
   ("sd", {| cfg_width := 1280; cfg_height := 720; cfg_bitrate := "2500k"; cfg_fps := 30 |});
   ("mobile", {| cfg_width := 640; cfg_height := 360; cfg_bitrate := "1000k"; cfg_fps := 30 |})].

Definition config_dict (c : VariantConfig) : PyVal :=
  VDict [("width", VInt (cfg_width c)); ("height", VInt (cfg_height c));
         ("bitrate", VStr (cfg_bitrate c)); ("fps", VInt (cfg_fps c))].

Record RetryConfig := {
  max_attempts : nat;
  backoff_factor : Z;
  initial_delay : Z
}.

Definition RETRY_CONFIG : RetryConfig :=
  {| max_attempts := 3; backoff_factor := 2; initial_delay := 1 |}.

(** *** The external collaborators

    Each answer may depend on the position of the call in the trace, so
    that a collaborator can fail at one attempt and succeed at the next.
    libmagic is a function of the bytes alone. *)

Inductive ProbeResult :=
| ProbeExit (returncode : Z) (stderr : string)
| ProbeRaises (e : PyExc).

Inductive ScanResult :=
| ScanReport (scan_status : string) (malware_detected : bool)
| ScanRaises (e : PyExc).

(** [process.run(...)] returns the pair [(out, err)] of the captured
    streams, or raises. *)
Inductive FfmpegResult :=
| FfmpegOut (out : bytes) (err : bytes)
| FfmpegRaises (e : PyExc).

Record Env := {
  magic_from_buffer : bytes -> MagicResult;
  ffprobe : nat -> bytes -> ProbeResult;
  scan_bytes : nat -> bytes -> ScanResult;
  ffmpeg_run : nat -> bytes -> string -> VariantConfig -> FfmpegResult;
  cdn_domain : string;
  put_object : nat -> string -> bytes -> option PyExc;
  cleanup_failed_upload : nat -> string -> option PyExc
}.

Local Open Scope py_scope.

(** [await asyncio.sleep(delay)] *)
Definition sleep (delay : Z) : M (S := World) unit :=
  await _ <- emit (EvSleep delay); ret tt.

Definition log_info (msg : string) : M (S := World) unit :=
  await _ <- emit (EvLogInfo msg); ret tt.
Definition log_error (msg : string) : M (S := World) unit :=
  await _ <- emit (EvLogError msg); ret tt.

(** The loop of the [retry] decorator: [attempt] is the loop variable,
    [remaining] what is left of [range(config['max_attempts'])]. After
    the loop [raise last_exception] runs; with no attempt made that is
    [raise None], a [TypeError]. *)
Fixpoint retry_loop {A} (config : RetryConfig) (func : M (S := World) A)
    (attempt remaining : nat) (last_exception : option PyExc)
  : M (S := World) A :=
  match remaining with
  | O =>
    match last_exception with
    | Some e => raise e
    | None => raise (TypeError "exceptions must derive from BaseException")
    end
  | Datatypes.S remaining' =>
    try_except func (fun e =>
      let delay := initial_delay config * backoff_factor config ^ Z.of_nat attempt in
      await _ <- sleep delay;
      retry_loop config func (Datatypes.S attempt) remaining' (Some e))
  end.

(** [@retry(config)] *)
Definition retry {A} (config : RetryConfig) (func : M (S := World) A)
  : M (S := World) A :=
  retry_loop config func 0 (max_attempts config) None.

(** [StorageService.upload_variant]. The URL cache of the storage service
    is private to it and is left out. *)
Definition upload_variant (env : Env) (variant_content : bytes)
    (video_id quality : string) : M (S := World) (bool * string * option string) :=
  let variant_key := "videos/" +:+ video_id +:+ "/variants/" +:+ quality +:+ ".mp4" in
  await i <- emit (EvUpload variant_key);
  match put_object env i variant_key variant_content with
  | None =>
    let cdn_url := "https://" +:+ cdn_domain env +:+ "/" +:+ variant_key in
    await _ <- log_info "Variant upload completed";
    ret (true, "", Some cdn_url)
  | Some e =>
    let error_msg := "Variant upload failed: " +:+ str_exc e in
    await _ <- log_error error_msg;
    ret (false, error_msg, None)
  end.

(** [VideoProcessingService.validate_format] *)
Definition validate_format (env : Env) (file_content : bytes)
  : M (S := World) (bool * string) :=
  try_except
    (await _ <- emit (EvMagic (first_n 2048 file_content));
     match magic_from_buffer env (first_n 2048 file_content) with
     | MagicRaises e => raise e
     | MimeType mime_type =>
       if negb (str_in mime_type SUPPORTED_MIME_TYPES) then
         ret (false, "Unsupported MIME type: " +:+ mime_type)
       else
         await i <- emit EvProbe;
         match ffprobe env i file_content with
         | ProbeRaises e => raise e
         | ProbeExit returncode stderr =>
           if negb (returncode =? 0) then
             ret (false, "Invalid video format: " +:+ stderr)
           else ret (true, "")
         end
     end)
    (fun e => ret (false, "Format validation failed: " +:+ str_exc e)).

(** [VideoProcessingService.scan_security] *)
Definition scan_security (env : Env) (file_content : bytes)
  : M (S := World) (bool * string) :=
  try_except
    (await i <- emit EvScan;
     match scan_bytes env i file_content with
     | ScanRaises e => raise e
     | ScanReport scan_status malware_detected =>
       await _ <- log_info "Security scan completed";
       if malware_detected then ret (false, "Malware detected in video content")
       else ret (true, "")
     end)
    (fun e => ret (false, "Security scan failed: " +:+ str_exc e)).

(** The body of [generate_variant], before the decorator. [process] is
    the stream specification that [overwrite_output()] returns, and the
    stream objects of ffmpeg-python have no attribute [duration]: once
    the transcoder has answered, the first argument of
    [VideoMetadata(duration=float(process.duration), ...)] raises, and
    neither the constructor nor the [return] is reached. *)
Definition generate_variant_body (env : Env) (file_content : bytes)
    (quality : string) (config : VariantConfig)
  : M (S := World) (bytes * VideoMetadata) :=
  try_except
    (await i <- emit (EvTranscode quality);
     match ffmpeg_run env i file_content quality config with
     | FfmpegRaises e => raise e
     | FfmpegOut out err =>
       raise (AttributeError "'OutputStream' object has no attribute 'duration'")
     end)
    (fun e =>
       await _ <- log_error ("Variant generation failed: " +:+ str_exc e);
       raise e).

(** [VideoProcessingService.generate_variant], decorated with
    [@retry(config=RETRY_CONFIG)]. *)
Definition generate_variant (env : Env) (file_content : bytes)
    (quality : string) (config : VariantConfig)
  : M (S := World) (bytes * VideoMetadata) :=
  retry RETRY_CONFIG (generate_variant_body env file_content quality config).

(** [await self._storage_service.cleanup_failed_upload(video.id)].
    [StorageService] defines no method of that name: what the call does
    is a parameter, it returns or it raises. *)
Definition cleanup (env : Env) : M (S := World) unit :=
  await w <- get;
  await i <- emit (EvCleanup (id (video w)));
  match cleanup_failed_upload env i (id (video w)) with
  | None => ret tt
  | Some e => raise e
  end.

(** [await x] for the tuple [x] that a plain [def] has returned: a
    tuple is not awaitable. *)
Definition await_tuple {A} (x : A) : M (S := World) A :=
  raise (TypeError "object tuple can't be used in 'await' expression").

(** A method of [Video] called with a status name: it sees the video and
    the clock, and neither the collaborators nor the log. *)
Definition StatusMethod : Type :=
  string -> Video * nat -> (PyExc + unit) * (Video * nat).

Definition call_method (f : StatusMethod) (new_status : string)
  : M (S := World) unit :=
  fun w =>
    let '(r, (v, t)) := f new_status (video w, clock w) in
    (r, {| video := v; clock := t; trace := trace w |}).

(** The [try] block of [process_video], for a given [video.update_status].
    The bookkeeping in [self._processing_metrics] touches neither the
    [Video] nor the control flow and is left out.
    [StorageService.upload_variant] is a plain [def]: the call in the loop
    runs it to its [return], and the [await] is then applied to the tuple
    it returned. *)
Definition process_video_try_with (update_status : string -> M (S := World) unit)
    (env : Env) (file_content : bytes) : M (S := World) bool :=
  await _ <- update_status "scanning";
  await (is_valid, error_msg) <- validate_format env file_content;
  if negb is_valid then
    raise (ValueError ("Video validation failed: " +:+ error_msg))
  else
  await (is_safe, scan_msg) <- scan_security env file_content;
  if negb is_safe then
    raise (ValueError ("Security scan failed: " +:+ scan_msg))
  else
  await _ <- update_status "processing";
  await _ <- for_each VARIANT_CONFIGS (fun '(quality, config) =>
    await (variant_content, variant_metadata) <-
      generate_variant env file_content quality config;
    await w <- get;
    await (success, error, url) <-
      (await result <- upload_variant env variant_content (id (video w)) quality;
       await_tuple result);
    if negb success then
      raise (ValueError ("Failed to upload " +:+ quality +:+ " variant: " +:+ error))
    else
    await _ <- add_variant quality url variant_metadata
                 [("provider", VStr "cloudfront"); ("quality", VStr quality);
                  ("config", config_dict config)];
    ret tt);
  await _ <- update_status "ready";
  await _ <- log_info "Video processing completed";
  ret true.

(** The [except Exception as e] block of [process_video]; its last
    statement is the bare [raise]. *)
Definition process_video_except_with (update_status : string -> M (S := World) unit)
    (env : Env) (e : PyExc) : M (S := World) bool :=
  await _ <- update_status "failed";
  await _ <- log_error ("Video processing failed: " +:+ str_exc e);
  await _ <- cleanup env;
  raise e.

(** The body of [process_video], before the decorator. *)
Definition process_video_body_with (update_status : string -> M (S := World) unit)
    (env : Env) (file_content : bytes) : M (S := World) bool :=
  try_except (process_video_try_with update_status env file_content)
             (process_video_except_with update_status env).

(** [VideoProcessingService.process_video], decorated with
    [@retry(config=RETRY_CONFIG)]. *)
Definition process_video_with (update_status : string -> M (S := World) unit)
    (env : Env) (file_content : bytes) : M (S := World) bool :=
  retry RETRY_CONFIG (process_video_body_with update_status env file_content).

(** The pipeline with [VideoModel.update_status] for
    [video.update_status]. *)
Definition process_video_try (env : Env) (file_content : bytes)
  : M (S := World) bool :=
  process_video_try_with update_status env file_content.

Definition process_video_except (env : Env) (e : PyExc) : M (S := World) bool :=
  process_video_except_with update_status env e.

Definition process_video_body (env : Env) (file_content : bytes)
  : M (S := World) bool :=
  try_except (process_video_try env file_content) (process_video_except env).

Definition process_video (env : Env) (file_content : bytes)
  : M (S := World) bool :=
  retry RETRY_CONFIG (process_video_body env file_content).

(** A run from a fresh trace. *)
Definition run {A} (m : M (S := World) A) (v : Video) : (PyExc + A) * World :=
  m {| video := v; clock := 0%nat; trace := [] |}.

End Service.

(** ** Vocabulary of the statements *)

Module Props.
Import Py Runtime Validators VideoModel Service.





(** The entry a status transition files. *)
Definition stage_entry (x : PyVal) : Prop :=
  exists t, x = VDict [("timestamp", VTime t)].

(** [h'] is [h] with, at most, stage entries filed under status names. *)
Definition history_extends (h h' : gmap string PyVal) : Prop :=
  forall k, h' !! k = h !! k \/
            (In k VIDEO_STATUS /\ exists x, h' !! k = Some x /\ stage_entry x).

(** What the stages of the pipeline may do to the world: the video keeps
    its identifier and its variants, its history gets stage entries only,
    and the trace grows by events that all satisfy [p]. *)
Record framed (p : Event -> bool) (w w' : World) : Prop := {
  framed_id : id (video w') = id (video w);
  framed_variants : variants (video w') = variants (video w);
  framed_history :
    history_extends (processing_history (video w)) (processing_history (video w'));
  framed_trace : exists evs, trace w' = trace w ++ evs /\ forallb p evs = true
}.

(** Every run of [m] is framed. *)
Definition frames (p : Event -> bool) {A} (m : M (S := World) A) : Prop :=
  forall w r w', m w = (r, w') -> framed p w w'.

(** No run of [m] returns normally. *)
Definition always_raises {A} (m : M (S := World) A) : Prop :=
  forall w, exists e w', m w = (inl e, w').

Definition not_cleanup (e : Event) : bool := negb (is_cleanup e).

(** A scanner answer that is not a clean report: malware, or no answer. *)
Definition scan_rejects (r : ScanResult) : Prop :=
  match r with
  | ScanReport _ false => False
  | _ => True
  end.

(** The qualities held by a video, in order. *)
Definition qualities (v : Video) : list string := map quality (variants v).

(** The world an [except] block of [process_video] leaves, entered in [w]
    with the exception [e]. *)
Definition failed_world (e : PyExc) (w : World) : World :=
  {| video := set_history "failed" (VDict [("timestamp", VTime (clock w))])
                (set_status "failed" (video w));
     clock := Datatypes.S (clock w);
     trace := (trace w ++ [EvLogError ("Video processing failed: " +:+ str_exc e)])
              ++ [EvCleanup (id (video w))] |}.

(** The exception that block raises: the one it was entered with, unless
    the cleanup call raises its own. *)
Definition failed_error (env : Env) (e : PyExc) (w : World) : PyExc :=
  default e (cleanup_failed_upload env
               (length (trace w ++ [EvLogError ("Video processing failed: " +:+ str_exc e)]))
               (id (video w))).

(** What one attempt of [process_video] adds to the trace: the events
    [evs] of its [try] block, then the error log line and the cleanup call
    of its [except] block, then the sleep of the decorator. *)
Definition attempt_events (evs : list Event) (msg video_id : string) (delay : Z)
  : list Event :=
  evs ++ [EvLogError ("Video processing failed: " +:+ msg);
          EvCleanup video_id; EvSleep delay].

(** [u] is the world one attempt started in [w] leaves, after the sleep
    that follows it. *)
Record attempt (p : Event -> bool) (delay : Z) (w u : World) : Prop := {
  attempt_status : status (video u) = "failed";
  attempt_id : id (video u) = id (video w);
  attempt_variants : variants (video u) = variants (video w);
  attempt_history :
    history_extends (processing_history (video w)) (processing_history (video u));
  attempt_trace : exists evs msg,
    trace u = trace w ++ attempt_events evs msg (id (video w)) delay /\
    forallb p evs = true
}.

(** What a failed attempt of [generate_variant] adds to the trace: the
    transcoder call, the error log line, and the sleep of the decorator. *)
Definition transcode_failure (quality : string) (e : PyExc) (delay : Z)
  : list Event :=
  [EvTranscode quality;
   EvLogError ("Variant generation failed: " +:+ str_exc e);
   EvSleep delay].

(** The world [w] with [evs] added to its trace. *)
Definition logged (evs : list Event) (w : World) : World :=
  {| video := video w; clock := clock w; trace := trace w ++ evs |}.

(** The events of the two gates when both let the input pass. *)
Definition gates_passed (file_content : bytes) : list Event :=
  [EvMagic (first_n 2048 file_content); EvProbe; EvScan;
   EvLogInfo "Security scan completed"].

(** Every run of the [try] block of [process_video] raises [e] after
    adding exactly the events [evs] to the trace. *)
Definition try_adds (env : Env) (file_content : bytes)
    (evs : list Event) (e : PyExc) : Prop :=
  forall w, exists w1,
    process_video_try env file_content w = (inl e, w1) /\
    id (video w1) = id (video w) /\
    trace w1 = trace w ++ evs.

(** The three attempts of a call whose [try] block adds [evs] and raises
    an exception of text [msg] each time. *)
Definition three_attempts (evs : list Event) (msg video_id : string) : list Event :=
  attempt_events evs msg video_id 1 ++
  attempt_events evs msg video_id 2 ++
  attempt_events evs msg video_id 4.

(** The result of a run is an exception. *)
Definition raised {A} (r : PyExc + A) : Prop := exists e, r = inl e.

(** An answer of ffprobe that makes validation fail: a return code other
    than 0, or no answer. *)
Definition probe_rejects (r : ProbeResult) : Prop :=
  match r with
  | ProbeExit returncode _ => returncode <> 0
  | ProbeRaises _ => True
  end.

(** The gates turn the input down whenever they are consulted:
    [validate_format] answers [False], or it answers [True] and
    [scan_security], called next, answers [False]. *)
Definition gates_turn_down (env : Env) (file_content : bytes) : Prop :=
  forall w ok msg w1,
    validate_format env file_content w = (inr (ok, msg), w1) ->
    ok = true ->
    exists scan_msg w2,
      scan_security env file_content w1 = (inr (false, scan_msg), w2).

(** What makes the gates turn an input down at every attempt: libmagic
    raises, or names a type outside the allow-list; ffprobe raises or
    exits with a code other than 0; the scanner raises or reports
    malware. *)
Inductive gate_rejects (env : Env) (file_content : bytes) : Prop :=
| magic_raises (e : PyExc) :
    magic_from_buffer env (first_n 2048 file_content) = MagicRaises e ->
    gate_rejects env file_content
| mime_unsupported (mime : string) :
    magic_from_buffer env (first_n 2048 file_content) = MimeType mime ->
    str_in mime SUPPORTED_MIME_TYPES = false ->
    gate_rejects env file_content
| probe_turns_down :
    (forall i, probe_rejects (ffprobe env i file_content)) ->
    gate_rejects env file_content
| scanner_turns_down :
    (forall i, scan_rejects (scan_bytes env i file_content)) ->
    gate_rejects env file_content.

(** The three sleeps of a call that used all its attempts. *)
Definition three_sleeps : list Event := [EvSleep 1; EvSleep 2; EvSleep 4].

(** The sleeps of a trace, in order. *)
Definition sleeps (evs : list Event) : list Event :=
  filter (fun e => is_sleep e = true) evs.

(** Operations on one video: a call of [process_video], a status
    transition, and a direct call of [add_variant]. *)
Inductive PipelineOp :=
| OpProcess (env : Env) (file_content : bytes)
| OpStatus (new_status : string)
| OpAddVariant (quality : string) (url : option string)
    (metadata : VideoMetadata) (delivery_config : list (string * PyVal)).

Definition run_op (op : PipelineOp) : M (S := World) unit :=
  match op with
  | OpProcess env file_content =>
    bind (process_video env file_content) (fun _ => ret tt)
  | OpStatus new_status => update_status new_status
  | OpAddVariant quality url metadata delivery_config =>
    bind (add_variant quality url metadata delivery_config) (fun _ => ret tt)
  end.

(** The operations one after the other; the caller goes on after an
    operation that raised. *)
Fixpoint run_ops (ops : list PipelineOp) : M (S := World) unit :=
  match ops with
  | [] => ret tt
  | op :: ops' =>
    bind (try_except (run_op op) (fun _ => ret tt)) (fun _ => run_ops ops')
  end.

(** The operations the pipeline performs by itself: no direct call of
    [add_variant]. *)
Definition pipeline_op (op : PipelineOp) : bool :=
  match op with
  | OpAddVariant _ _ _ _ => false
  | _ => true
  end.

(** The video and the clock a [StatusMethod] leaves after one attempt of
    [process_video]: the call for [scanning], the call for [processing]
    when the attempt got past the two gates, and the call for [failed]. *)
Definition attempt_state (f : StatusMethod) (passed : bool) (st : Video * nat)
  : Video * nat :=
  let scanning := snd (f "scanning" st) in
  snd (f "failed" (if passed then snd (f "processing" scanning) else scanning)).


(** The world after [asyncio.sleep(delay)]. *)
Definition slept (delay : Z) (w : World) : World :=
  {| video := video w; clock := clock w; trace := trace w ++ [EvSleep delay] |}.

End Props.

(** ** Sample collaborators and inputs *)

Module Samples.
Import Py Runtime Validators VideoModel Service.

Definition fresh_video : Video :=
  {| id := "4f1c"; status := "pending"; variants := []; processing_history := ∅ |}.

(** Every collaborator answers and succeeds. *)
Definition healthy : Env := {|
  magic_from_buffer := fun _ => MimeType "video/mp4";
  ffprobe := fun _ _ => ProbeExit 0 "";
  scan_bytes := fun _ _ => ScanReport "clean" false;
  ffmpeg_run := fun _ _ _ _ => FfmpegOut [x00; x00; x00; x18] [];
  cdn_domain := "cdn.example.com";
  put_object := fun _ _ _ => None;
  cleanup_failed_upload := fun _ _ => None
|}.

(** libmagic recognises a PDF. *)
Definition pdf_upload : Env := {|
  magic_from_buffer := fun _ => MimeType "application/pdf";
  ffprobe := ffprobe healthy;
  scan_bytes := scan_bytes healthy;
  ffmpeg_run := ffmpeg_run healthy;
  cdn_domain := cdn_domain healthy;
  put_object := put_object healthy;
  cleanup_failed_upload := cleanup_failed_upload healthy
|}.

(** libmagic's answer for an empty buffer. *)
Definition empty_upload : Env := {|
  magic_from_buffer := fun _ => MimeType "application/x-empty";
  ffprobe := ffprobe healthy;
  scan_bytes := scan_bytes healthy;
  ffmpeg_run := ffmpeg_run healthy;
  cdn_domain := cdn_domain healthy;
  put_object := put_object healthy;
  cleanup_failed_upload := cleanup_failed_upload healthy
|}.

(** The scanner finds malware. *)
Definition infected : Env := {|
  magic_from_buffer := magic_from_buffer healthy;
  ffprobe := ffprobe healthy;
  scan_bytes := fun _ _ => ScanReport "infected" true;
  ffmpeg_run := ffmpeg_run healthy;
  cdn_domain := cdn_domain healthy;
  put_object := put_object healthy;
  cleanup_failed_upload := cleanup_failed_upload healthy
|}.

(** The transcoder crashes at every call. *)
Definition transcoder_down : Env := {|
  magic_from_buffer := magic_from_buffer healthy;
  ffprobe := ffprobe healthy;
  scan_bytes := scan_bytes healthy;
  ffmpeg_run := fun _ _ _ _ => FfmpegRaises (Exc "Error" "ffmpeg error");
  cdn_domain := cdn_domain healthy;
  put_object := put_object healthy;
  cleanup_failed_upload := cleanup_failed_upload healthy
|}.

(** A PDF is uploaded and the cleanup call of the storage adapter fails. *)
Definition cleanup_down : Env := {|
  magic_from_buffer := magic_from_buffer pdf_upload;
  ffprobe := ffprobe healthy;
  scan_bytes := scan_bytes healthy;
  ffmpeg_run := ffmpeg_run healthy;
  cdn_domain := cdn_domain healthy;
  put_object := put_object healthy;
  cleanup_failed_upload := fun _ _ => Some (Exc "ClientError" "AccessDenied")
|}.


(** ffprobe cannot read the stream. *)
Definition unreadable : Env := {|
  magic_from_buffer := magic_from_buffer healthy;
  ffprobe := fun _ _ => ProbeExit 1 "moov atom not found";
  scan_bytes := scan_bytes healthy;
  ffmpeg_run := ffmpeg_run healthy;
  cdn_domain := cdn_domain healthy;
  put_object := put_object healthy;
  cleanup_failed_upload := cleanup_failed_upload healthy
|}.


(** A coroutine that fails until the decorator has slept once. *)
Definition flaky : M (S := World) bool :=
  fun w =>
    if existsb is_sleep (trace w) then (inr true, w)
    else (inl (Exc "ConnectionError" "connection reset"), w).

Definition sample_metadata : VideoMetadata :=
  {| duration := 60 # 1; width := 320; height := 180; fps := 30 # 1;
     codec := "h264"; size_bytes := 2048; format := "mp4"; checksum := "42";
     virus_scanned := true; content_safe := true |}.

(** A video that holds a thumbnail. *)
Definition video_with_thumbnail : Video :=
  {| id := "4f1c"; status := "pending";
     variants := [{| quality := "thumbnail";
                     url := "https://cdn.example.com/videos/4f1c/variants/thumbnail.mp4";
                     metadata := sample_metadata; created_at := 0%nat;
                     cdn_provider := "cloudfront";
                     delivery_config := [("provider", VStr "cloudfront")] |}];
     processing_history := ∅ |}.

(** The first bytes of an MP4 file. *)
Definition short_content : bytes := [x00; x00; x00; x18].

(** An upload that passes [validate_video_file]: 1024 bytes. *)
Definition sample_content : bytes :=
  header_000 ++ repeat x00 1017 ++ term_mdat.

End Samples.

(** ** [utils/validators.py]: colour codes *)

Module Colors.
Import Py Runtime.

(** The text of a colour code, as the list of its code points:
    [validate_hex_color] counts and doubles characters, which the UTF-8
    bytes do not show. *)
Abbreviation text := (list N).

(** [str.upper()] on ASCII code points. *)
Definition upper_cp (c : N) : N :=
  if ((97 <=? c) && (c <=? 122))%N then (c - 32)%N else c.

(** What [s.upper()] gives for a text of ASCII characters. *)
Definition ascii_upper (s : text) : text := map upper_cp s.

(** The character class [[0-9A-F]] *)
Definition is_hex_upper (c : N) : bool :=
  ((48 <=? c) && (c <=? 57) || (65 <=? c) && (c <=? 70))%N.

Definition hash : N := 35.
Definition newline : N := 10.

(** [''.join(c + c for c in s)] *)
Fixpoint double_chars (s : text) : text :=
  match s with
  | [] => []
  | c :: s' => c :: c :: double_chars s'
  end.

(** [re.match(r'^#[0-9A-F]{6}$', s)]: [$] also matches before a newline
    that ends the text. *)
Definition match_hex6 (s : text) : bool :=
  match s with
  | h :: a :: b :: c :: d :: e :: f :: rest =>
    (h =? hash)%N &&
    is_hex_upper a && is_hex_upper b && is_hex_upper c &&
    is_hex_upper d && is_hex_upper e && is_hex_upper f &&
    match rest with
    | [] => true
    | [n] => (n =? newline)%N
    | _ => false
    end
  | _ => false
  end.

(** [validate_hex_color(color)] for a [str] argument; [str_upper] is
    [str.upper]. *)
Definition validate_hex_color (str_upper : text -> text) (color : text)
  : bool * string * text :=
  match color with
  | [] => (false, "Invalid color value", [])
  | first :: _ =>
    if negb (first =? hash)%N then (false, "Color code must start with #", [])
    else
      let color := str_upper color in
      if (length color =? 4)%nat then
        let color := hash :: double_chars (drop 1 color) in
        if negb (match_hex6 color) then (false, "Invalid hex color characters", [])
        else (true, "", color)
      else if negb (length color =? 7)%nat then
        (false, "Invalid color code length", [])
      else
        if negb (match_hex6 color) then (false, "Invalid hex color characters", [])
        else (true, "", color)
  end.

End Colors.


(** ** Vocabulary of the further statements *)

Module Schedule.
Import Py Runtime VideoModel Service Props.

(** The sleep after the failed attempt number [attempt]. *)
Definition delay_of (config : RetryConfig) (attempt : nat) : Z :=
  initial_delay config * backoff_factor config ^ Z.of_nat attempt.

(** What [n] failed attempts, numbered from [attempt] on, add to the
    trace when each adds [evs]: the events of the attempt, then its
    sleep. *)
Fixpoint failed_attempts (config : RetryConfig) (evs : list Event)
    (attempt n : nat) : list Event :=
  match n with
  | O => []
  | Datatypes.S n' =>
    evs ++ EvSleep (delay_of config attempt)
        :: failed_attempts config evs (Datatypes.S attempt) n'
  end.

(** The seconds slept in a trace. *)
Fixpoint total_sleep (evs : list Event) : Z :=
  match evs with
  | [] => 0
  | EvSleep d :: evs' => d + total_sleep evs'
  | _ :: evs' => total_sleep evs'
  end.

(** The storage key [upload_variant] writes to. *)
Definition variant_key (video_id quality : string) : string :=
  "videos/" +:+ video_id +:+ "/variants/" +:+ quality +:+ ".mp4".

(** The events of format validation. *)
Definition validation_event (e : Event) : bool :=
  match e with
  | EvMagic _ | EvProbe => true
  | _ => false
  end.

End Schedule.

Module MoreSamples.
Import Py Runtime Validators VideoModel Service Samples.

Definition fresh_world : World :=
  {| video := fresh_video; clock := 0; trace := [] |}.

End MoreSamples.

Module ColourForms.
Import Py Runtime Colors.

(** The code points of [0-9] and [A-F]. *)
Definition upper_hex_digit (c : N) : Prop :=
  (48 <= c <= 57 \/ 65 <= c <= 70)%N.

(** The code points of [0-9], [A-F] and [a-f]. *)
Definition hex_digit (c : N) : Prop :=
  (48 <= c <= 57 \/ 65 <= c <= 70 \/ 97 <= c <= 102)%N.

(** The texts [#] followed by six characters of [0-9] and [A-F]. *)
Definition normal_colour (s : text) : Prop :=
  exists a b c d e f,
    s = [35; a; b; c; d; e; f]%N
    /\ upper_hex_digit a /\ upper_hex_digit b /\ upper_hex_digit c
    /\ upper_hex_digit d /\ upper_hex_digit e /\ upper_hex_digit f.

(** [str_upper] does what [str.upper()] does on ASCII text. *)
Definition upper_on_ascii (str_upper : text -> text) : Prop :=
  forall s, Forall (fun c => (c < 128)%N) s -> str_upper s = ascii_upper s.

End ColourForms.

(** ** Facts about the Python helpers *)

Section PyFacts.
Import Py.

Lemma bytes_eqb_eq (a b : bytes) : bytes_eqb a b = true -> a = b.
Proof.
  revert b; induction a as [|x a IH]; intros [|y b]; simpl; try discriminate; auto.
  intros H. apply andb_true_iff in H as [Hxy Hab].
  apply Byte.byte_dec_bl in Hxy. f_equal; auto.
Qed.

Lemma startswith_prefix (b p : bytes) :
  startswith b p = true -> take (length p) b = p.
Proof.
  revert b; induction p as [|y p IH]; intros b; simpl.
  - intros _. now rewrite take_0.
  - destruct b as [|x b]; [discriminate|].
    intros H. apply andb_true_iff in H as [Hxy Hbp].
    apply Byte.byte_dec_bl in Hxy. subst. simpl. f_equal. auto.
Qed.

Lemma endswith_suffix (b t : bytes) :
  endswith b t = true -> exists pre, b = pre ++ t.
Proof.
  unfold endswith, last_n. intros H.
  apply andb_true_iff in H as [_ H]. apply bytes_eqb_eq in H.
  exists (take (length b - length t)%nat b).
  pose proof (take_drop (length b - length t)%nat b) as E.
  rewrite H in E. now symmetry.
Qed.

Lemma bytes_eqb_refl (a : bytes) : bytes_eqb a a = true.
Proof.
  induction a as [|x a IH]; [reflexivity|]. cbn [bytes_eqb].
  rewrite IH, andb_true_r. destruct x; reflexivity.
Qed.

Lemma endswith_iff (b t : bytes) :
  endswith b t = true <-> exists pre, b = pre ++ t.
Proof.
  split; [apply endswith_suffix|]. intros [pre ->].
  unfold endswith, last_n. rewrite length_app.
  replace (length pre + length t - length t)%nat with (length pre) by lia.
  rewrite drop_app_length, bytes_eqb_refl, andb_true_r.
  apply Nat.leb_le. lia.
Qed.

Lemma str_in_In (x : string) (xs : list string) : str_in x xs = true -> In x xs.
Proof.
  unfold str_in. intros H. apply existsb_exists in H as (y & Hy & Heq).
  apply String.eqb_eq in Heq. now subst.
Qed.

End PyFacts.

(** ** The extension of a file name *)

Section Extensions.
Import Py.

Lemma append_cons (x : ascii) (a b : string) :
  String x a +:+ b = String x (a +:+ b).
Proof. reflexivity. Qed.

Lemma contains_char_In (c : ascii) (s : string) :
  contains_char c s = false -> ~ In c (list_ascii_of_string s).
Proof.
  induction s as [|a s IH]; cbn [contains_char list_ascii_of_string]; [tauto|].
  intros H. apply orb_false_iff in H as [Ha Hs].
  intros [E | Hin]; [|now apply IH].
  subst a. now rewrite Ascii.eqb_refl in Ha.
Qed.

Lemma drop_str_app (stem rest : string) :
  drop_str (String.length stem) (stem +:+ rest) = rest.
Proof.
  induction stem as [|a stem IH]; [now destruct rest|].
  rewrite append_cons. cbn [String.length drop_str]. exact IH.
Qed.

(** [rfind_from] finds the last occurrence: what follows it holds no
    further one. *)
Lemma rfind_from_last (c : ascii) (s : string) (i found : Z) :
  (contains_char c s = false -> rfind_from c s i found = found) /\
  (contains_char c s = true ->
   exists stem rest,
     s = stem +:+ String c rest /\
     contains_char c rest = false /\
     rfind_from c s i found = i + Z.of_nat (String.length stem)).
Proof.
  revert i found. induction s as [|a s IH]; intros i found.
  - split; [reflexivity | discriminate].
  - cbn [contains_char rfind_from].
    destruct (IH (i + 1) (if Ascii.eqb a c then i else found)) as [IHn IHy].
    destruct (contains_char c s) eqn:Hs.
    + rewrite orb_true_r. split; [discriminate|]. intros _.
      destruct (IHy eq_refl) as (stem & rest & -> & Hrest & ->).
      exists (String a stem), rest. rewrite append_cons.
      split; [reflexivity|]. split; [exact Hrest|].
      cbn [String.length]. lia.
    + rewrite orb_false_r. rewrite (IHn eq_refl).
      destruct (Ascii.eqb_spec a c) as [-> | Hne].
      * split; [discriminate|]. intros _. exists "", s.
        split; [reflexivity|]. split; [exact Hs|]. cbn [String.length]. lia.
      * split; [reflexivity | discriminate].
Qed.

(** [filename[filename.rfind('.'):]] when the name holds a dot: the name
    splits into a stem and that suffix, which starts with the last dot. *)
Lemma suffix_from_last_dot (filename : string) :
  contains_char "." filename = true ->
  exists stem ext,
    filename = stem +:+ String "." ext /\
    ~ In "."%char (list_ascii_of_string ext) /\
    slice_from (rfind "." filename) filename = String "." ext.
Proof.
  intros H. destruct (rfind_from_last "." filename 0 (-1)) as [_ Hy].
  destruct (Hy H) as (stem & ext & -> & Hext & Hr).
  exists stem, ext. split; [reflexivity|].
  split; [now apply contains_char_In|].
  unfold slice_from, rfind. rewrite Hr, Z.add_0_l, Nat2Z.id.
  apply drop_str_app.
Qed.

End Extensions.


(** ** What the stages leave untouched *)

Section Frames.
Import Py Runtime Validators VideoModel Service Props.
Local Open Scope py_scope.

Variable p : Event -> bool.

Lemma history_extends_refl (h : gmap string PyVal) : history_extends h h.
Proof. intros k. now left. Qed.

Lemma history_extends_trans (h1 h2 h3 : gmap string PyVal) :
  history_extends h1 h2 -> history_extends h2 h3 -> history_extends h1 h3.
Proof.
  intros H12 H23 k. destruct (H23 k) as [E | R]; [|now right].
  rewrite E. apply H12.
Qed.

Lemma history_extends_stage (h : gmap string PyVal) (k : string) (t : nat) :
  In k VIDEO_STATUS ->
  history_extends h (<[ k := VDict [("timestamp", VTime t)] ]> h).
Proof.
  intros Hk k'. destruct (decide (k = k')) as [<- | Hne].
  - right. split; [assumption|]. eexists. rewrite lookup_insert_eq.
    split; [reflexivity|]. now exists t.
  - left. now rewrite lookup_insert_ne.
Qed.

Lemma framed_refl (w : World) : framed p w w.
Proof.
  split; try reflexivity.
  - apply history_extends_refl.
  - exists []. now rewrite app_nil_r.
Qed.

Lemma framed_trans (w1 w2 w3 : World) :
  framed p w1 w2 -> framed p w2 w3 -> framed p w1 w3.
Proof.
  intros [I1 V1 H1 (evs1 & T1 & P1)] [I2 V2 H2 (evs2 & T2 & P2)]. split.
  - congruence.
  - congruence.
  - eapply history_extends_trans; eassumption.
  - exists (evs1 ++ evs2). split.
    + rewrite T2, T1. now rewrite app_assoc.
    + rewrite forallb_app, P1, P2. reflexivity.
Qed.

Lemma frames_ret {A} (a : A) : frames p (ret a).
Proof. intros w r w' E. inversion E; subst. apply framed_refl. Qed.

Lemma frames_raise {A} (e : PyExc) : frames p (raise (A := A) e).
Proof. intros w r w' E. inversion E; subst. apply framed_refl. Qed.

Lemma frames_get : frames p get.
Proof. intros w r w' E. inversion E; subst. apply framed_refl. Qed.

Lemma frames_bind {A B} (m : M A) (k : A -> M B) :
  frames p m -> (forall a, frames p (k a)) -> frames p (bind m k).
Proof.
  intros Hm Hk w r w' E. unfold bind in E.
  destruct (m w) as [[e | a] w1] eqn:Em.
  - inversion E; subst. eapply Hm; eassumption.
  - eapply framed_trans; [eapply Hm; eassumption | eapply Hk; eassumption].
Qed.

Lemma frames_try_except {A} (m : M A) (h : PyExc -> M A) :
  frames p m -> (forall e, frames p (h e)) -> frames p (try_except m h).
Proof.
  intros Hm Hh w r w' E. unfold try_except in E.
  destruct (m w) as [[e | a] w1] eqn:Em.
  - eapply framed_trans; [eapply Hm; eassumption | eapply Hh; eassumption].
  - inversion E; subst. eapply Hm; eassumption.
Qed.

Lemma frames_for_each {A} (xs : list A) (body : A -> M unit) :
  (forall x, In x xs -> frames p (body x)) -> frames p (for_each xs body).
Proof.
  induction xs as [|x xs IH]; intros Hb; simpl.
  - apply frames_ret.
  - apply frames_bind.
    + apply Hb. now left.
    + intros _. apply IH. intros y Hy. apply Hb. now right.
Qed.

Lemma frames_emit (e : Event) : p e = true -> frames p (emit e).
Proof.
  intros He w r w' E. inversion E; subst. split; try reflexivity.
  - apply history_extends_refl.
  - exists [e]. cbn. now rewrite He.
Qed.

Lemma frames_sleep (d : Z) : p (EvSleep d) = true -> frames p (sleep d).
Proof.
  intros He. apply frames_bind; [now apply frames_emit | intros; apply frames_ret].
Qed.

Lemma frames_log_info (msg : string) :
  p (EvLogInfo msg) = true -> frames p (log_info msg).
Proof.
  intros He. apply frames_bind; [now apply frames_emit | intros; apply frames_ret].
Qed.

Lemma frames_log_error (msg : string) :
  p (EvLogError msg) = true -> frames p (log_error msg).
Proof.
  intros He. apply frames_bind; [now apply frames_emit | intros; apply frames_ret].
Qed.

Lemma frames_update_status (s : string) : frames p (update_status s).
Proof.
  unfold update_status. destruct (str_in s VIDEO_STATUS) eqn:Hs; simpl.
  - intros w r w' E. inversion E; subst. split; try reflexivity.
    + cbn. apply history_extends_stage. now apply str_in_In.
    + exists []. cbn. now rewrite app_nil_r.
  - apply frames_raise.
Qed.

Lemma frames_add_variant_rejected (q : string) (u : option string)
    (md : VideoMetadata) (dc : list (string * PyVal)) :
  str_in q VIDEO_VARIANTS = false -> frames p (add_variant q u md dc).
Proof.
  intros Hq. unfold add_variant. rewrite Hq. simpl. apply frames_raise.
Qed.

Lemma frames_retry_loop {A} (config : RetryConfig) (func : M A)
    (attempt remaining : nat) (last : option PyExc) :
  frames p func -> (forall d, p (EvSleep d) = true) ->
  frames p (retry_loop config func attempt remaining last).
Proof.
  intros Hf Hs. revert attempt last.
  induction remaining as [|n IH]; intros attempt last; simpl.
  - destruct last; apply frames_raise.
  - apply frames_try_except; [assumption|]. intros e.
    apply frames_bind; [apply frames_sleep, Hs | intros _; apply IH].
Qed.

End Frames.


(** ** The stages of the pipeline *)

Section Stages.
Import Py Runtime Validators VideoModel Service Props.
Local Open Scope py_scope.

Variable env : Env.
Variable file_content : bytes.

(** The events the trace may grow by. *)
Variable p : Event -> bool.
Hypothesis p_gate : forall e, gate_event e = true -> p e = true.

Ltac frame_step :=
  first
    [ apply frames_ret
    | apply frames_raise
    | apply frames_get
    | apply frames_update_status
    | apply frames_emit; auto
    | apply frames_sleep; auto
    | apply frames_log_info; auto
    | apply frames_log_error; auto
    | apply frames_bind; [|intros ?]
    | apply frames_try_except; [|intros ?] ].

Lemma frames_validate_format : frames p (validate_format env file_content).
Proof.
  unfold validate_format. repeat frame_step.
  destruct (magic_from_buffer env _); [|frame_step].
  destruct (negb _); repeat frame_step.
  destruct (ffprobe env _ _); [|frame_step].
  destruct (negb _); frame_step.
Qed.

Lemma frames_scan_security : frames p (scan_security env file_content).
Proof.
  unfold scan_security. repeat frame_step.
  destruct (scan_bytes env _ _); [|frame_step].
  repeat frame_step. destruct malware_detected; frame_step.
Qed.

(** A scanner that rejects makes [scan_security] answer [False]. *)
Lemma scan_security_rejects (w : World) :
  scan_rejects (scan_bytes env (length (trace w)) file_content) ->
  exists msg w', scan_security env file_content w = (inr (false, msg), w').
Proof.
  unfold scan_security, try_except, bind, emit. cbn.
  destruct (scan_bytes env _ _) as [st [|] | e]; cbn; intros H.
  - eauto.
  - contradiction.
  - eauto.
Qed.

(** [scan_security] returns, after the scanner call alone or after that
    call and the log line. *)
Lemma scan_security_cases (w : World) :
  exists safe msg evs,
    scan_security env file_content w = (inr (safe, msg), logged evs w) /\
    (evs = [EvScan] \/ evs = [EvScan; EvLogInfo "Security scan completed"]).
Proof.
  unfold scan_security, try_except, bind, emit, log_info, ret, raise, logged.
  cbn -[str_in first_n].
  destruct (scan_bytes env _ _) as [st [|] | e]; cbn -[str_in first_n];
    rewrite <- ?app_assoc; eauto 6.
Qed.

(** [scan_security] answers [True] only for a report without the
    malware flag. *)
Lemma scan_security_true (w : World) (msg : string) (w' : World) :
  scan_security env file_content w = (inr (true, msg), w') ->
  exists st, scan_bytes env (length (trace w)) file_content = ScanReport st false.
Proof.
  unfold scan_security, try_except, bind, emit, log_info, ret, raise.
  cbn -[str_in first_n].
  destruct (scan_bytes env _ _) as [st [|] | e]; cbn -[str_in first_n];
    try discriminate.
  intros _. now exists st.
Qed.

(** [validate_format] returns, after the libmagic call alone or after
    that call and the ffprobe call. *)
Lemma validate_format_cases (w : World) :
  exists ok msg evs,
    validate_format env file_content w = (inr (ok, msg), logged evs w) /\
    (evs = [EvMagic (first_n 2048 file_content)] \/
     evs = [EvMagic (first_n 2048 file_content); EvProbe]).
Proof.
  unfold validate_format, try_except, bind, emit, ret, raise, logged.
  cbn -[str_in first_n].
  destruct (magic_from_buffer env _) as [mime | e]; cbn -[str_in first_n];
    [|eauto 6].
  destruct (str_in mime SUPPORTED_MIME_TYPES); cbn -[str_in first_n]; [|eauto 6].
  destruct (ffprobe env _ _) as [rc stderr | e]; cbn -[str_in first_n];
    [destruct (rc =? 0); cbn -[str_in first_n]|];
    rewrite <- ?app_assoc; eauto 6.
Qed.

Hypothesis p_work : forall e, work_event e = true -> p e = true.

Lemma frames_generate_variant (quality : string) (config : VariantConfig) :
  frames p (generate_variant env file_content quality config).
Proof.
  unfold generate_variant, retry. apply frames_retry_loop; [|auto].
  unfold generate_variant_body. repeat frame_step.
  destruct (ffmpeg_run env _ _ _ _); frame_step.
Qed.

Lemma frames_upload_variant (content : bytes) (video_id quality : string) :
  frames p (upload_variant env content video_id quality).
Proof.
  unfold upload_variant. repeat frame_step.
  destruct (put_object env _ _ _); repeat frame_step.
Qed.

(** None of the configured profile names is a quality [add_variant]
    accepts. *)
Lemma profiles_rejected (quality : string) (config : VariantConfig) :
  In (quality, config) VARIANT_CONFIGS -> str_in quality VIDEO_VARIANTS = false.
Proof.
  unfold VARIANT_CONFIGS. simpl.
  intros [E | [E | [E | []]]]; inversion E; reflexivity.
Qed.

Lemma frames_await_tuple {A} (x : A) : frames p (await_tuple x).
Proof. apply frames_raise. Qed.

Lemma frames_process_video_try : frames p (process_video_try env file_content).
Proof.
  unfold process_video_try, process_video_try_with.
  apply frames_bind; [apply frames_update_status | intros _].
  apply frames_bind; [apply frames_validate_format | intros [is_valid error_msg]].
  destruct (negb is_valid); [apply frames_raise|].
  apply frames_bind; [apply frames_scan_security | intros [is_safe scan_msg]].
  destruct (negb is_safe); [apply frames_raise|].
  apply frames_bind; [apply frames_update_status | intros _].
  apply frames_bind.
  - apply frames_for_each. intros [quality config] Hin.
    apply frames_bind; [apply frames_generate_variant | intros [vc vm]].
    apply frames_bind; [apply frames_get | intros w0].
    apply frames_bind;
      [apply frames_bind; [apply frames_upload_variant | intros; apply frames_await_tuple]
      | intros [[success error] url]].
    destruct (negb success); [apply frames_raise|].
    apply frames_bind; [|intros; apply frames_ret].
    apply frames_add_variant_rejected. eapply profiles_rejected; eassumption.
  - intros _. repeat frame_step.
Qed.

End Stages.

Section Raises.
Import Py Runtime Validators VideoModel Service Props.
Local Open Scope py_scope.

Variable env : Env.
Variable file_content : bytes.

Lemma bind_raises {A B} (m : M (S := World) A) (k : A -> M B) :
  (forall a, always_raises (k a)) -> always_raises (bind m k).
Proof.
  intros Hk w. unfold bind. destruct (m w) as [[e | a] w1].
  - now exists e, w1.
  - apply Hk.
Qed.

Lemma raises_bind_l {A B} (m : M (S := World) A) (k : A -> M B) :
  always_raises m -> always_raises (bind m k).
Proof.
  intros Hm w. destruct (Hm w) as (e & w' & E). exists e, w'.
  unfold bind. now rewrite E.
Qed.

Lemma bind_returns {A B} (m : M (S := World) A) (k : A -> M B)
    (w : World) (a : A) (w' : World) :
  m w = (inr a, w') -> bind m k w = k a w'.
Proof. intros E. unfold bind. now rewrite E. Qed.

Lemma raise_raises {A} (e : PyExc) : always_raises (raise (A := A) e).
Proof. intros w. now exists e, w. Qed.

(** A decorated function that never returns makes the decorator raise. *)
Lemma retry_loop_raises {A} (config : RetryConfig) (func : M (S := World) A)
    (attempt n : nat) (last : option PyExc) :
  always_raises func -> always_raises (retry_loop config func attempt n last).
Proof.
  intros Hf. revert attempt last.
  induction n as [|n IH]; intros attempt last w; cbn [retry_loop].
  - destruct last; eexists; eexists; reflexivity.
  - unfold try_except. destruct (Hf w) as (e & w1 & ->).
    unfold bind, sleep, emit, ret. cbn. apply IH.
Qed.

(** An attempt of [generate_variant] calls the transcoder, logs an error
    and raises. *)
Lemma generate_variant_body_fails (quality : string) (config : VariantConfig)
    (w : World) :
  exists e,
    generate_variant_body env file_content quality config w
    = (inl e, logged [EvTranscode quality;
                      EvLogError ("Variant generation failed: " +:+ str_exc e)] w).
Proof.
  unfold generate_variant_body, logged.
  cbv beta iota zeta delta [try_except bind emit log_error ret raise].
  cbn [trace video clock].
  destruct (ffmpeg_run env _ _ _ _) as [out err | e]; eexists;
    cbn [trace video clock]; rewrite <- app_assoc; reflexivity.
Qed.

(** A decorated function that raises and touches the trace only makes
    the decorator do the same. *)
Lemma retry_loop_logged {A} (config : RetryConfig) (func : M (S := World) A)
    (n attempt : nat) (last : option PyExc) (w : World) :
  (forall w0, exists e evs, func w0 = (inl e, logged evs w0)) ->
  exists e evs,
    retry_loop config func attempt n last w = (inl e, logged evs w).
Proof.
  intros Hf. revert attempt last w.
  induction n as [|n IH]; intros attempt last w; cbn [retry_loop].
  - destruct last; eexists; exists []; unfold raise, logged;
      rewrite app_nil_r; destruct w; reflexivity.
  - destruct (Hf w) as (e & evs & E).
    set (d := initial_delay config * backoff_factor config ^ Z.of_nat attempt).
    destruct (IH (Datatypes.S attempt) (Some e)
                {| video := video w; clock := clock w;
                   trace := (trace w ++ evs) ++ [EvSleep d] |})
      as (e' & evs' & E').
    exists e', (evs ++ EvSleep d :: evs').
    unfold try_except. rewrite E.
    cbv beta iota zeta delta [bind sleep emit ret logged].
    cbn [trace video clock]. fold d. rewrite E'.
    unfold logged. cbn [trace video clock]. rewrite <- !app_assoc. reflexivity.
Qed.

(** [generate_variant] raises and leaves the video and the clock as they
    were. *)
Lemma generate_variant_fails (quality : string) (config : VariantConfig)
    (w : World) :
  exists e evs,
    generate_variant env file_content quality config w = (inl e, logged evs w).
Proof.
  unfold generate_variant, retry. apply retry_loop_logged.
  intros w0. destruct (generate_variant_body_fails quality config w0) as [e E].
  eauto.
Qed.

(** [generate_variant] never returns: the transcoder raises, or the read
    of [process.duration] does. *)
Lemma generate_variant_raises (quality : string) (config : VariantConfig) :
  always_raises (generate_variant env file_content quality config).
Proof.
  unfold generate_variant, retry. apply retry_loop_raises.
  intros w. unfold generate_variant_body, try_except, bind, emit, log_error,
    ret, raise. cbn.
  destruct (ffmpeg_run env _ _ _ _); eexists; eexists; reflexivity.
Qed.

(** The [try] block never completes: it stops at a gate, or at the
    transcode of the first profile. *)
Lemma process_video_try_raises : always_raises (process_video_try env file_content).
Proof.
  unfold process_video_try, process_video_try_with.
  apply bind_raises; intros _.
  apply bind_raises; intros [is_valid error_msg].
  destruct (negb is_valid); [apply raise_raises|].
  apply bind_raises; intros [is_safe scan_msg].
  destruct (negb is_safe); [apply raise_raises|].
  apply bind_raises; intros _.
  apply raises_bind_l. unfold VARIANT_CONFIGS. cbn [for_each].
  apply raises_bind_l. cbn beta iota.
  apply raises_bind_l. apply generate_variant_raises.
Qed.


End Raises.


(** ** One attempt, and the three the decorator makes *)

Section Attempts.
Import Py Runtime Validators VideoModel Service Props.
Local Open Scope py_scope.

Variable env : Env.
Variable file_content : bytes.

(** A failed attempt of a decorated function: sleep, then go on with the
    rest of the range. *)
Lemma retry_loop_step {A} (config : RetryConfig) (func : M (S := World) A)
    (attempt n : nat) (last : option PyExc) (w : World) (e : PyExc) (w' : World) :
  func w = (inl e, w') ->
  retry_loop config func attempt (Datatypes.S n) last w
  = retry_loop config func (Datatypes.S attempt) n (Some e)
      (slept (initial_delay config * backoff_factor config ^ Z.of_nat attempt) w').
Proof.
  intros E. cbn [retry_loop]. unfold try_except. rewrite E. reflexivity.
Qed.

(** A successful attempt ends the loop. *)
Lemma retry_loop_return {A} (config : RetryConfig) (func : M (S := World) A)
    (attempt n : nat) (last : option PyExc) (w : World) (a : A) (w' : World) :
  func w = (inr a, w') ->
  retry_loop config func attempt (Datatypes.S n) last w = (inr a, w').
Proof.
  intros E. cbn [retry_loop]. unfold try_except. now rewrite E.
Qed.

Lemma process_video_except_eq (e : PyExc) (w : World) :
  process_video_except env e w = (inl (failed_error env e w), failed_world e w).
Proof.
  unfold process_video_except, process_video_except_with, failed_error,
    failed_world, cleanup.
  unfold bind, update_status, log_error, get, emit, utcnow, modify, ret, raise,
    with_video, bind. cbn.
  destruct (cleanup_failed_upload env _ _); reflexivity.
Qed.

Lemma process_video_body_eq (w : World) (e : PyExc) (w1 : World) :
  process_video_try env file_content w = (inl e, w1) ->
  process_video_body env file_content w
  = (inl (failed_error env e w1), failed_world e w1).
Proof.
  intros E. unfold process_video_body, try_except. rewrite E.
  apply process_video_except_eq.
Qed.

(** A call of the decorated [process_video] is three attempts, each
    followed by a sleep, and raises what the last attempt raised. *)
Lemma process_video_three_attempts (w : World)
    (e1 e2 e3 : PyExc) (w1 w2 w3 : World) :
  process_video_try env file_content w = (inl e1, w1) ->
  process_video_try env file_content (slept 1 (failed_world e1 w1)) = (inl e2, w2) ->
  process_video_try env file_content (slept 2 (failed_world e2 w2)) = (inl e3, w3) ->
  process_video env file_content w
  = (inl (failed_error env e3 w3), slept 4 (failed_world e3 w3)).
Proof.
  intros E1 E2 E3.
  apply process_video_body_eq in E1, E2, E3.
  unfold process_video, retry. cbn [max_attempts RETRY_CONFIG].
  rewrite (retry_loop_step _ _ _ _ _ _ _ _ E1).
  change (initial_delay RETRY_CONFIG * backoff_factor RETRY_CONFIG ^ Z.of_nat 0)
    with 1.
  rewrite (retry_loop_step _ _ _ _ _ _ _ _ E2).
  change (initial_delay RETRY_CONFIG * backoff_factor RETRY_CONFIG ^ Z.of_nat 1)
    with 2.
  rewrite (retry_loop_step _ _ _ _ _ _ _ _ E3).
  reflexivity.
Qed.

(** The events the [try] block may add to the trace. *)
Variable p : Event -> bool.
Hypothesis try_framed : frames p (process_video_try env file_content).

(** Every call ends in the [except] block of its third attempt. *)
Lemma process_video_spec (w : World) :
  exists e1 w1 e2 w2 e3 w3,
    framed p w w1 /\
    framed p (slept 1 (failed_world e1 w1)) w2 /\
    framed p (slept 2 (failed_world e2 w2)) w3 /\
    process_video env file_content w
    = (inl (failed_error env e3 w3), slept 4 (failed_world e3 w3)).
Proof.
  destruct (process_video_try_raises env file_content w) as (e1 & w1 & E1).
  destruct (process_video_try_raises env file_content (slept 1 (failed_world e1 w1)))
    as (e2 & w2 & E2).
  destruct (process_video_try_raises env file_content (slept 2 (failed_world e2 w2)))
    as (e3 & w3 & E3).
  exists e1, w1, e2, w2, e3, w3.
  split; [eapply try_framed; exact E1 |].
  split; [eapply try_framed; exact E2 |].
  split; [eapply try_framed; exact E3 |].
  now apply process_video_three_attempts with e1 e2 w1 w2.
Qed.

End Attempts.


(** ** The outcome of a call *)

Section Outcome.
Import Py Runtime Validators VideoModel Service Props.

Lemma count_app (q : Event -> bool) (a b : list Event) :
  count q (a ++ b) = (count q a + count q b)%nat.
Proof. unfold count. now rewrite filter_app, length_app. Qed.

Lemma count_none (p q : Event -> bool) (evs : list Event) :
  (forall e, p e = true -> q e = false) ->
  forallb p evs = true -> count q evs = 0%nat.
Proof.
  intros Hpq. induction evs as [|e evs IH]; [reflexivity|].
  cbn [forallb]. intros H. apply andb_true_iff in H as [He Hevs].
  unfold count in *. rewrite filter_cons.
  destruct (decide (q e = true)) as [Hq | _].
  - rewrite (Hpq e He) in Hq. discriminate.
  - now apply IH.
Qed.

Lemma count_attempt_events (q : Event -> bool) (evs : list Event)
    (msg vid : string) (d : Z) :
  count q (attempt_events evs msg vid d)
  = (count q evs
     + count q [EvLogError ("Video processing failed: " +:+ msg); EvCleanup vid; EvSleep d])%nat.
Proof. unfold attempt_events. apply count_app. Qed.

Variable p : Event -> bool.

Lemma attempt_intro (d : Z) (e : PyExc) (w w1 : World) :
  framed p w w1 -> attempt p d w (slept d (failed_world e w1)).
Proof.
  intros [Hid Hvar Hhist (evs & Htr & Hp)]. split; cbn.
  - reflexivity.
  - exact Hid.
  - exact Hvar.
  - eapply history_extends_trans; [exact Hhist|].
    apply history_extends_stage. cbn. tauto.
  - exists evs, (str_exc e). split; [|exact Hp].
    rewrite Htr, Hid. unfold attempt_events.
    rewrite <- !app_assoc. reflexivity.
Qed.

Variable env : Env.
Variable file_content : bytes.
Hypothesis try_framed : frames p (process_video_try env file_content).

(** A call raises and leaves the world of three chained attempts. *)
Lemma process_video_outcome (w : World) :
  exists e u1 u2 u3,
    process_video env file_content w = (inl e, u3) /\
    attempt p 1 w u1 /\ attempt p 2 u1 u2 /\ attempt p 4 u2 u3.
Proof.
  destruct (process_video_spec env file_content p try_framed w)
    as (e1 & w1 & e2 & w2 & e3 & w3 & F1 & F2 & F3 & E).
  exists (failed_error env e3 w3), (slept 1 (failed_world e1 w1)),
    (slept 2 (failed_world e2 w2)), (slept 4 (failed_world e3 w3)).
  split; [exact E|].
  split; [now apply attempt_intro|].
  split; now apply attempt_intro.
Qed.

End Outcome.


(** ** Upload validation *)

Section UploadValidation.
Import Py Runtime Validators.

(** An extension of the allow-list comes from a file name that ends with
    a dot and a suffix without further dot. *)
Lemma file_ext_split (str_lower : string -> string) (filename : string) :
  str_in (file_ext str_lower filename) ALLOWED_VIDEO_FORMATS = true ->
  exists stem ext,
    filename = stem +:+ String "." ext /\
    ~ In "."%char (list_ascii_of_string ext) /\
    file_ext str_lower filename = str_lower (String "." ext).
Proof.
  unfold file_ext.
  destruct (contains_char "." filename) eqn:Hdot; [|discriminate].
  destruct (suffix_from_last_dot filename Hdot) as (stem & ext & Hf & Hno & Hs).
  intros _. exists stem, ext. rewrite Hs. auto.
Qed.

(** The name the module exports cannot be called: every call raises
    [TypeError], so as exported the validator accepts nothing. *)
Lemma validate_video_file_not_callable
    (content : bytes) (filename : string) (strict : bool) :
  validate_video_file content filename strict
  = inl (TypeError "'PydanticDescriptorProxy' object is not callable").
Proof. reflexivity. Qed.

(** C10. Whatever the function defined as [validate_video_file] accepts
    under strict validation is between 1024 bytes and 5 GiB long, starts
    with the bytes [00 00 00] or [00 00 01], has [mdat] or [moov] at the
    end of its last 32 bytes, and carries a file name that ends with a dot
    and an extension without further dot which [str.lower()] turns into
    [.mp4], [.mov], [.avi] or [.mkv]. The statement holds for every
    [str.lower]. *)
Theorem validate_video_file_strict_bounds
    (str_lower : string -> string) (magic : bytes -> MagicResult)
    (content : bytes) (filename : string) :
  fst (fst (validate_video_file_wrapped str_lower magic content filename true))
  = true ->
  (1024 <= length content)%nat /\
  Z.of_nat (length content) <= 5368709120 /\
  (take 3 content = [x00; x00; x00] \/ take 3 content = [x00; x00; x01]) /\
  (exists pre, drop (length content - 32) content = pre ++ [x6d; x64; x61; x74] \/
               drop (length content - 32) content = pre ++ [x6d; x6f; x6f; x76]) /\
  (exists stem ext,
     filename = stem +:+ String "." ext /\
     ~ In "."%char (list_ascii_of_string ext) /\
     In (str_lower (String "." ext)) [".mp4"; ".mov"; ".avi"; ".mkv"]).
Proof.
  intros H. unfold validate_video_file_wrapped in H.
  destruct content as [|b rest]; [cbn [fst] in H; discriminate|].
  remember (b :: rest) as c eqn:Hc. clear Hc b rest.
  destruct (MAX_VIDEO_SIZE_BYTES <? Z.of_nat (length c)) eqn:Hmax;
    [cbn [fst] in H; discriminate|].
  destruct (str_in (file_ext str_lower filename) ALLOWED_VIDEO_FORMATS) eqn:Hext;
    cbn [negb] in H; [|cbn [fst] in H; discriminate].
  destruct (magic (first_n 2048 c)) as [mime | e];
    [|cbn [fst] in H; discriminate].
  destruct (str_in mime VALID_MIME_TYPES); cbn [negb] in H;
    [|cbn [fst] in H; discriminate].
  destruct (startswith c header_000 || startswith c header_001) eqn:Hhead;
    cbn [negb] in H; [|cbn [fst] in H; discriminate].
  destruct (Z.of_nat (length c) <? 1024) eqn:Hmin;
    [cbn [fst] in H; discriminate|].
  destruct (any (fun term => endswith (last_n 32 c) term) [term_mdat; term_moov])
    eqn:Hterm; cbn [negb] in H; [|cbn [fst] in H; discriminate].
  clear H. apply Z.ltb_ge in Hmax, Hmin. unfold MAX_VIDEO_SIZE_BYTES in Hmax.
  split; [lia|]. split; [exact Hmax|]. split; [|split].
  - apply orb_true_iff in Hhead as [Hh | Hh];
      apply startswith_prefix in Hh; [left | right]; exact Hh.
  - unfold any in Hterm. cbn [existsb] in Hterm.
    rewrite orb_false_r in Hterm. apply orb_true_iff in Hterm as [Ht | Ht];
      apply endswith_suffix in Ht as [pre Ht]; exists pre; [left | right]; exact Ht.
  - destruct (file_ext_split str_lower filename Hext) as (stem & ext & Hf & Hno & Hs).
    exists stem, ext. split; [exact Hf|]. split; [exact Hno|].
    rewrite Hs in Hext. now apply str_in_In.
Qed.

Lemma validate_video_file_strict_bounds_witness :
  (1024 <= length Samples.sample_content)%nat /\
  Z.of_nat (length Samples.sample_content) <= 5368709120 /\
  (take 3 Samples.sample_content = [x00; x00; x00] \/
   take 3 Samples.sample_content = [x00; x00; x01]) /\
  (exists pre,
     drop (length Samples.sample_content - 32) Samples.sample_content
     = pre ++ [x6d; x64; x61; x74] \/
     drop (length Samples.sample_content - 32) Samples.sample_content
     = pre ++ [x6d; x6f; x6f; x76]) /\
  (exists stem ext,
     "Swing.Driver.MP4" = stem +:+ String "." ext /\
     ~ In "."%char (list_ascii_of_string ext) /\
     In (ascii_lower (String "." ext)) [".mp4"; ".mov"; ".avi"; ".mkv"]).
Proof.
  apply (validate_video_file_strict_bounds ascii_lower
           (fun _ => MimeType "video/mp4")).
  vm_compute. reflexivity.
Defined.

End UploadValidation.


(** ** Every call of [process_video] *)

Section EveryCall.
Import Py Runtime Validators VideoModel Service Props.

Lemma gate_not_cleanup (e : Event) : gate_event e = true -> not_cleanup e = true.
Proof. destruct e; cbn; congruence. Qed.

Lemma work_not_cleanup (e : Event) : work_event e = true -> not_cleanup e = true.
Proof. destruct e; cbn; congruence. Qed.

Lemma not_cleanup_count (evs : list Event) :
  forallb not_cleanup evs = true -> count is_cleanup evs = 0%nat.
Proof.
  apply count_none. intros e. unfold not_cleanup. now destruct (is_cleanup e).
Qed.

Variable env : Env.
Variable file_content : bytes.

Lemma frames_try_not_cleanup :
  frames not_cleanup (process_video_try env file_content).
Proof.
  apply frames_process_video_try; [exact gate_not_cleanup | exact work_not_cleanup].
Qed.

(** Whatever the collaborators answer, a call raises, leaves the status
    at [failed], keeps the variants, files stage entries only, and calls
    the cleanup of the storage adapter once per attempt. *)
Lemma process_video_fails (w : World) :
  exists e w',
    process_video env file_content w = (inl e, w') /\
    status (video w') = "failed" /\
    id (video w') = id (video w) /\
    variants (video w') = variants (video w) /\
    history_extends (processing_history (video w)) (processing_history (video w')) /\
    exists evs, trace w' = trace w ++ evs /\ count is_cleanup evs = 3%nat.
Proof.
  destruct (process_video_outcome not_cleanup env file_content
              frames_try_not_cleanup w)
    as (e & u1 & u2 & u3 & E & A1 & A2 & A3).
  exists e, u3. split; [exact E|].
  destruct A1 as [S1 I1 V1 H1 (evs1 & m1 & T1 & P1)].
  destruct A2 as [S2 I2 V2 H2 (evs2 & m2 & T2 & P2)].
  destruct A3 as [S3 I3 V3 H3 (evs3 & m3 & T3 & P3)].
  split; [exact S3|]. split; [congruence|]. split; [congruence|]. split.
  - eapply history_extends_trans; [|exact H3].
    eapply history_extends_trans; eassumption.
  - eexists. split.
    + rewrite T3, T2, T1. rewrite <- !app_assoc. reflexivity.
    + rewrite !count_app, !count_attempt_events.
      rewrite !(not_cleanup_count _ P1), !(not_cleanup_count _ P2),
        !(not_cleanup_count _ P3).
      reflexivity.
Qed.

End EveryCall.


(** ** Calls whose collaborators answer the same at every attempt *)

Section Repeats.
Import Py Runtime Validators VideoModel Service Props.

Variable env : Env.
Variable file_content : bytes.

Ltac run_pipeline :=
  unfold process_video_try, process_video_try_with, validate_format,
    scan_security, try_except, bind,
    update_status, log_info, log_error, emit, utcnow, modify, ret, raise;
  change (str_in "scanning" VIDEO_STATUS) with true;
  change (str_in "processing" VIDEO_STATUS) with true;
  cbn -[str_in first_n generate_variant].

(** The decorator repeats a [try] block that fails the same way. *)
Lemma process_video_repeats (evs : list Event) (e : PyExc) (w : World) :
  try_adds env file_content evs e ->
  exists e' w',
    process_video env file_content w = (inl e', w') /\
    status (video w') = "failed" /\
    trace w' = trace w ++ three_attempts evs (str_exc e) (id (video w)) /\
    (e' = e \/ exists i, cleanup_failed_upload env i (id (video w)) = Some e').
Proof.
  intros Ht.
  destruct (Ht w) as (w1 & E1 & I1 & T1).
  destruct (Ht (slept 1 (failed_world e w1))) as (w2 & E2 & I2 & T2).
  destruct (Ht (slept 2 (failed_world e w2))) as (w3 & E3 & I3 & T3).
  cbn in I2, I3, T2, T3.
  exists (failed_error env e w3), (slept 4 (failed_world e w3)).
  split; [now apply process_video_three_attempts with e e w1 w2|].
  split; [reflexivity|]. split.
  - cbn. rewrite T3, T2, T1. rewrite I3, I2, I1.
    unfold three_attempts, attempt_events. rewrite <- !app_assoc. reflexivity.
  - unfold failed_error. rewrite I3, I2, I1.
    destruct (cleanup_failed_upload env _ _) as [ec|] eqn:Ec; cbn.
    + right. eauto.
    + now left.
Qed.

(** libmagic names a type outside the allow-list: the [try] block stops
    after that one call. *)
Lemma try_unsupported (mime : string) :
  magic_from_buffer env (first_n 2048 file_content) = MimeType mime ->
  str_in mime SUPPORTED_MIME_TYPES = false ->
  try_adds env file_content [EvMagic (first_n 2048 file_content)]
    (ValueError ("Video validation failed: Unsupported MIME type: " +:+ mime)).
Proof.
  intros Hm Hs w. eexists. run_pipeline.
  rewrite Hm. cbn -[str_in first_n]. rewrite Hs. cbn -[str_in first_n].
  split; [reflexivity|]. split; reflexivity.
Qed.

(** A transcoder that fails at every call: [generate_variant] makes three
    attempts, sleeps 1, 2 and 4 seconds after them, and raises the last
    error. *)
Lemma generate_variant_exhausts (quality : string) (config : VariantConfig)
    (e : PyExc) (w : World) :
  (forall i, ffmpeg_run env i file_content quality config = FfmpegRaises e) ->
  generate_variant env file_content quality config w
  = (inl e, logged (transcode_failure quality e 1 ++
                    transcode_failure quality e 2 ++
                    transcode_failure quality e 4) w).
Proof.
  intros Hf. unfold generate_variant, retry, generate_variant_body.
  cbn [max_attempts RETRY_CONFIG retry_loop].
  unfold try_except, bind, sleep, log_error, emit, ret, raise.
  cbn -[str_in first_n]. rewrite !Hf. cbn -[str_in first_n].
  unfold logged, transcode_failure. rewrite <- !app_assoc. reflexivity.
Qed.

(** Both gates pass and the transcoder fails at every call for [hd]: the
    [try] block ends when [generate_variant] has used its attempts. *)
Lemma try_transcoder_down (mime : string) (config : VariantConfig) (e : PyExc) :
  magic_from_buffer env (first_n 2048 file_content) = MimeType mime ->
  str_in mime SUPPORTED_MIME_TYPES = true ->
  (forall i, exists stderr, ffprobe env i file_content = ProbeExit 0 stderr) ->
  (forall i, exists st, scan_bytes env i file_content = ScanReport st false) ->
  In ("hd", config) VARIANT_CONFIGS ->
  (forall i, ffmpeg_run env i file_content "hd" config = FfmpegRaises e) ->
  try_adds env file_content
    (gates_passed file_content ++
     transcode_failure "hd" e 1 ++ transcode_failure "hd" e 2 ++
     transcode_failure "hd" e 4)
    e.
Proof.
  intros Hm Hs Hprobe Hscan Hcfg Hf w.
  assert (config = {| cfg_width := 1920; cfg_height := 1080;
                      cfg_bitrate := "5000k"; cfg_fps := 30 |}) as Hc.
  { cbn in Hcfg. destruct Hcfg as [E | [E | [E | []]]]; inversion E; reflexivity. }
  eexists. run_pipeline.
  rewrite Hm. cbn -[str_in first_n generate_variant]. rewrite Hs. cbn -[str_in first_n generate_variant].
  destruct (Hprobe (length (trace w ++ [EvMagic (first_n 2048 file_content)])))
    as [stderr ->]. cbn -[str_in first_n generate_variant].
  match goal with |- context [scan_bytes env ?i file_content] =>
    destruct (Hscan i) as [st ->] end.
  cbn -[str_in first_n generate_variant].
  unfold bind. cbn -[str_in first_n generate_variant].
  rewrite <- Hc. rewrite (generate_variant_exhausts "hd" config e) by exact Hf.
  cbn -[str_in first_n generate_variant].
  split; [reflexivity|]. split; [reflexivity|].
  unfold logged, with_video, gates_passed, transcode_failure. cbn [trace].
  rewrite <- !app_assoc. reflexivity.
Qed.

End Repeats.

(** ** What [update_status] can see *)

Section StatusMethods.
Import Py Runtime Validators VideoModel Service Props.

Variable f : StatusMethod.
Variable env : Env.
Variable file_content : bytes.

(** [VideoModel.update_status] is such a method. *)
Lemma update_status_is_method :
  exists g : StatusMethod, forall s w, update_status s w = call_method g s w.
Proof.
  exists (fun s st =>
            if negb (str_in s VIDEO_STATUS) then
              (inl (ValueError "Invalid status"), st)
            else
              (inr tt,
               (set_history s (VDict [("timestamp", VTime (snd st))])
                  (set_status s (fst st)),
                Datatypes.S (snd st)))).
  intros s [v t tr]. unfold update_status, call_method.
  destruct (negb (str_in s VIDEO_STATUS)); reflexivity.
Qed.


Lemma call_method_state (s : string) (w : World) (r : PyExc + unit) (w' : World) :
  call_method f s w = (r, w') ->
  (video w', clock w') = snd (f s (video w, clock w)) /\ trace w' = trace w.
Proof.
  unfold call_method. destruct (f s (video w, clock w)) as [r0 [v t]].
  intros E. inversion E; subst. split; reflexivity.
Qed.

(** The [except] block leaves the video and the clock as the call for
    [failed] leaves them. *)
Lemma except_state (e : PyExc) (w : World) :
  exists e' w',
    process_video_except_with (call_method f) env e w = (inl e', w') /\
    (video w', clock w') = snd (f "failed" (video w, clock w)).
Proof.
  unfold process_video_except_with.
  cbv beta iota zeta delta [bind call_method cleanup log_error get emit ret raise].
  destruct (f "failed" (video w, clock w)) as [[e2 | []] [v2 t2]];
    cbn [video clock trace fst snd].
  - eexists; eexists; split; reflexivity.
  - match goal with |- context [cleanup_failed_upload env ?i ?x] =>
      destruct (cleanup_failed_upload env i x) end;
      eexists; eexists; split; reflexivity.
Qed.

(** The [try] block raises, and leaves the video and the clock as the
    call for [scanning] leaves them, or as the call for [processing] does
    when the two gates were passed. *)
Lemma try_state (w : World) :
  exists passed e w1,
    process_video_try_with (call_method f) env file_content w = (inl e, w1) /\
    (video w1, clock w1)
    = (if passed : bool
       then snd (f "processing" (snd (f "scanning" (video w, clock w))))
       else snd (f "scanning" (video w, clock w))).
Proof.
  unfold process_video_try_with.
  destruct (call_method f "scanning" w) as [[e0 | []] w0] eqn:E0;
    pose proof (call_method_state _ _ _ _ E0) as [S0 _].
  { exists false, e0, w0. split; [|exact S0]. unfold bind. now rewrite E0. }
  rewrite (bind_returns _ _ _ _ _ E0).
  destruct (validate_format_cases env file_content w0)
    as (ok & msg & evs_v & Ev & _).
  rewrite (bind_returns _ _ _ _ _ Ev).
  destruct ok; cbn [negb];
    [|exists false; eexists; eexists; split; [reflexivity | exact S0]].
  destruct (scan_security_cases env file_content (logged evs_v w0))
    as (safe & smsg & evs_s & Es & _).
  rewrite (bind_returns _ _ _ _ _ Es).
  destruct safe; cbn [negb];
    [|exists false; eexists; eexists; split; [reflexivity | exact S0]].
  destruct (call_method f "processing" (logged evs_s (logged evs_v w0)))
    as [[e3 | []] w3] eqn:E3;
    pose proof (call_method_state _ _ _ _ E3) as [S3 _];
    cbn [logged video clock] in S3; rewrite S0 in S3.
  { exists true, e3, w3. split; [|exact S3]. unfold bind at 1. now rewrite E3. }
  rewrite (bind_returns _ _ _ _ _ E3).
  unfold VARIANT_CONFIGS. cbn [for_each].
  match goal with |- context [generate_variant env file_content ?q ?cfg] =>
    destruct (generate_variant_fails env file_content q cfg w3) as (e & evs & Eg)
  end.
  exists true, e, (logged evs w3). split; [|exact S3].
  unfold bind at 1 2 3. now rewrite Eg.
Qed.

(** An attempt raises, and leaves the video and the clock as the status
    method leaves them: nothing else of the attempt has a part in it. *)
Lemma body_state (w : World) :
  exists passed e w',
    process_video_body_with (call_method f) env file_content w = (inl e, w') /\
    (video w', clock w') = attempt_state f passed (video w, clock w).
Proof.
  destruct (try_state w) as (passed & e & w1 & Et & St).
  destruct (except_state e w1) as (e' & w' & Ee & Se).
  exists passed, e', w'. split.
  - unfold process_video_body_with, try_except. now rewrite Et.
  - rewrite Se, St. unfold attempt_state. now destruct passed.
Qed.

(** The same for a call: three attempts. *)
Lemma call_state (w : World) :
  exists p1 p2 p3 e w',
    process_video_with (call_method f) env file_content w = (inl e, w') /\
    (video w', clock w')
    = attempt_state f p3 (attempt_state f p2 (attempt_state f p1 (video w, clock w))).
Proof.
  destruct (body_state w) as (p1 & e1 & w1 & E1 & S1).
  destruct (body_state (slept 1 w1)) as (p2 & e2 & w2 & E2 & S2).
  destruct (body_state (slept 2 w2)) as (p3 & e3 & w3 & E3 & S3).
  exists p1, p2, p3, e3, (slept 4 w3). split.
  - unfold process_video_with, retry. cbn [max_attempts RETRY_CONFIG].
    rewrite (retry_loop_step _ _ _ _ _ _ _ _ E1).
    change (initial_delay RETRY_CONFIG * backoff_factor RETRY_CONFIG ^ Z.of_nat 0)
      with 1.
    rewrite (retry_loop_step _ _ _ _ _ _ _ _ E2).
    change (initial_delay RETRY_CONFIG * backoff_factor RETRY_CONFIG ^ Z.of_nat 1)
      with 2.
    rewrite (retry_loop_step _ _ _ _ _ _ _ _ E3).
    reflexivity.
  - cbn [slept video clock] in *. rewrite S3, S2, S1. reflexivity.
Qed.


End StatusMethods.

Section Blind.
Import Py Runtime Validators VideoModel Service Props.


End Blind.

(** ** Inputs the gates turn down *)

Section TurnedDown.
Import Py Runtime Validators VideoModel Service Props.

Variable env : Env.
Variable file_content : bytes.

(** Each cause of a rejection makes the gates turn the input down
    whenever they are consulted. *)
Lemma gate_rejects_turn_down :
  gate_rejects env file_content -> gates_turn_down env file_content.
Proof.
  intros Hrej w ok msg w1 Ev Hok. subst ok.
  destruct Hrej as [e Hm | mime Hm Hs | Hprobe | Hscan].
  - exfalso. revert Ev.
    unfold validate_format, try_except, bind, emit, ret, raise.
    cbn -[str_in first_n]. rewrite Hm. cbn -[str_in first_n]. discriminate.
  - exfalso. revert Ev.
    unfold validate_format, try_except, bind, emit, ret, raise.
    cbn -[str_in first_n]. rewrite Hm. cbn -[str_in first_n].
    rewrite Hs. cbn -[str_in first_n]. discriminate.
  - exfalso. revert Ev.
    unfold validate_format, try_except, bind, emit, ret, raise.
    cbn -[str_in first_n].
    destruct (magic_from_buffer env _) as [mime | e]; cbn -[str_in first_n];
      [|discriminate].
    destruct (str_in mime SUPPORTED_MIME_TYPES); cbn -[str_in first_n];
      [|discriminate].
    match goal with |- context [ffprobe env ?i file_content] =>
      pose proof (Hprobe i) as Hp; destruct (ffprobe env i file_content)
        as [rc stderr | e] end; cbn -[str_in first_n]; [|discriminate].
    cbn in Hp. destruct (Z.eqb_spec rc 0) as [-> | _]; [contradiction|].
    cbn -[str_in first_n]. discriminate.
  - apply scan_security_rejects, Hscan.
Qed.

Lemma sleeps_app (a b : list Event) : sleeps (a ++ b) = sleeps a ++ sleeps b.
Proof. unfold sleeps. apply filter_app. Qed.

Lemma sleeps_gate_only (evs : list Event) :
  forallb gate_event evs = true -> sleeps evs = [].
Proof.
  intros H. pose proof (count_none gate_event is_sleep evs) as Hc.
  unfold count in Hc. apply length_zero_iff_nil. apply Hc; [|exact H].
  intros [] ?; cbn in *; congruence.
Qed.

(** When the gates turn the input down, the [try] block raises after
    events of the gates only, one libmagic call among them. *)
Lemma try_turned_down (w : World) :
  gates_turn_down env file_content ->
  exists e w1 evs,
    process_video_try env file_content w = (inl e, w1) /\
    id (video w1) = id (video w) /\
    trace w1 = trace w ++ evs /\
    forallb gate_event evs = true /\
    count is_magic evs = 1%nat.
Proof.
  intros Hdown. unfold process_video_try, process_video_try_with.
  set (u := with_video (set_history "scanning" (VDict [("timestamp", VTime (clock w))]))
              {| video := set_status "scanning" (video w);
                 clock := Datatypes.S (clock w); trace := trace w |}).
  assert (Eu : update_status "scanning" w = (inr tt, u)) by reflexivity.
  rewrite (bind_returns _ _ _ _ _ Eu).
  destruct (validate_format_cases env file_content u) as (ok & msg & evs_v & Ev & Hv).
  rewrite (bind_returns _ _ _ _ _ Ev).
  assert (Hgv : forallb gate_event evs_v = true /\ count is_magic evs_v = 1%nat)
    by (destruct Hv as [-> | ->]; split; reflexivity).
  destruct ok; cbn [negb].
  - destruct (Hdown u true msg _ Ev eq_refl) as (smsg & w2 & Es).
    destruct (scan_security_cases env file_content (logged evs_v u))
      as (safe & smsg' & evs_s & Es' & Hsh).
    rewrite Es in Es'. inversion Es'; subst safe smsg' w2. clear Es'.
    rewrite (bind_returns _ _ _ _ _ Es). cbn [negb].
    eexists; eexists; exists (evs_v ++ evs_s). split; [reflexivity|].
    split; [reflexivity|]. split; [cbn; now rewrite app_assoc|].
    rewrite forallb_app, count_app. destruct Hgv as [-> ->].
    destruct Hsh as [-> | ->]; split; reflexivity.
  - eexists; eexists; exists evs_v. split; [reflexivity|].
    split; [reflexivity|]. split; [reflexivity|]. exact Hgv.
Qed.

(** The three attempts of a call on an input the gates turn down. *)
Lemma turned_down_attempts (w : World) :
  gates_turn_down env file_content ->
  exists e' w' evs1 evs2 evs3 m1 m2 m3,
    process_video env file_content w = (inl e', w') /\
    status (video w') = "failed" /\
    trace w' = trace w ++
               attempt_events evs1 m1 (id (video w)) 1 ++
               attempt_events evs2 m2 (id (video w)) 2 ++
               attempt_events evs3 m3 (id (video w)) 4 /\
    (forallb gate_event evs1 = true /\ count is_magic evs1 = 1%nat) /\
    (forallb gate_event evs2 = true /\ count is_magic evs2 = 1%nat) /\
    (forallb gate_event evs3 = true /\ count is_magic evs3 = 1%nat).
Proof.
  intros Hdown.
  destruct (try_turned_down w Hdown) as (e1 & w1 & evs1 & E1 & I1 & T1 & G1 & M1).
  destruct (try_turned_down (slept 1 (failed_world e1 w1)) Hdown)
    as (e2 & w2 & evs2 & E2 & I2 & T2 & G2 & M2).
  destruct (try_turned_down (slept 2 (failed_world e2 w2)) Hdown)
    as (e3 & w3 & evs3 & E3 & I3 & T3 & G3 & M3).
  cbn in I2, I3, T2, T3.
  exists (failed_error env e3 w3), (slept 4 (failed_world e3 w3)),
    evs1, evs2, evs3, (str_exc e1), (str_exc e2), (str_exc e3).
  split; [now apply process_video_three_attempts with e1 e2 w1 w2|].
  split; [reflexivity|]. split; [|auto].
  cbn. rewrite T3, T2, T1, I3, I2, I1. unfold attempt_events.
  rewrite <- !app_assoc. reflexivity.
Qed.

End TurnedDown.

(** ** The final status *)

Section FinalStatus.
Import Py Runtime Validators VideoModel Service Props Samples.

(** C1. With every collaborator succeeding, [process_video] does not
    reach [ready]. [generate_variant] raises for the first profile, at
    the read of [process.duration], on each of its three attempts; the
    attempt of [process_video] fails, and so do the two retries. The call
    raises, the status is [failed] and no variant is stored. The same
    outcome holds whatever the collaborators answer. Beyond that, an
    awaited upload raises whatever the storage answers, and [add_variant]
    refuses each of the configured profile names. That the call raises
    does not depend on what [update_status] does. *)
Theorem process_video_never_ready :
  (forall env file_content v, exists e w',
     run (process_video env file_content) v = (inl e, w') /\
     status (video w') = "failed" /\
     variants (video w') = variants v) /\
  (exists w',
     run (process_video healthy sample_content) fresh_video
     = (inl (AttributeError "'OutputStream' object has no attribute 'duration'"),
        w') /\
     status (video w') = "failed" /\
     variants (video w') = [] /\
     count is_transcode (trace w') = 9%nat /\
     count is_upload (trace w') = 0%nat) /\
  (forall env content video_id quality w, exists e w',
     bind (upload_variant env content video_id quality) await_tuple w
     = (inl e, w') /\
     exc_class e = "TypeError") /\
  (forall quality config, In (quality, config) VARIANT_CONFIGS ->
     forall url metadata delivery_config w,
       add_variant quality url metadata delivery_config w
       = (inl (ValueError ("Invalid quality variant: " +:+ quality)), w)) /\
  (forall (f : StatusMethod) env file_content v,
     raised (fst (run (process_video_with (call_method f) env file_content) v))).
Proof.
  split; [|split; [|split; [|split]]].
  - intros env file_content v. unfold run.
    destruct (process_video_fails env file_content
                {| video := v; clock := 0; trace := [] |})
      as (e & w' & E & Hs & _ & Hv & _).
    exists e, w'. auto.
  - exists (snd (run (process_video healthy sample_content) fresh_video)).
    split; [vm_compute; reflexivity|].
    split; [vm_compute; reflexivity|].
    split; [vm_compute; reflexivity|].
    split; vm_compute; reflexivity.
  - intros env content video_id quality w.
    unfold bind, upload_variant, await_tuple, emit, log_info, log_error, ret, raise.
    cbn. destruct (put_object env _ _ _); eexists; eexists; split; reflexivity.
  - intros quality config Hin url metadata delivery_config w.
    unfold add_variant. rewrite (profiles_rejected quality config Hin). reflexivity.
  - intros f env file_content v. unfold run.
    destruct (call_state f env file_content {| video := v; clock := 0; trace := [] |})
      as (_ & _ & _ & e & w' & E & _).
    rewrite E. now exists e.
Qed.




End FinalStatus.


(** ** The two gates *)

Section Gates.
Import Py Runtime Validators VideoModel Service Props Samples.

(** C8. When libmagic names a MIME type outside the allow-list,
    [validate_format] answers [False] with the unsupported-type reason,
    and a call of [process_video] makes no scanner call and no transcoder
    call before it ends with the status [failed]. *)
Theorem unsupported_mime_stops_at_validation
    (env : Env) (file_content : bytes) (mime : string) :
  magic_from_buffer env (first_n 2048 file_content) = MimeType mime ->
  str_in mime SUPPORTED_MIME_TYPES = false ->
  (forall w, fst (validate_format env file_content w)
             = inr (false, "Unsupported MIME type: " +:+ mime)) /\
  (forall v, exists e w',
     run (process_video env file_content) v = (inl e, w') /\
     status (video w') = "failed" /\
     count is_scan (trace w') = 0%nat /\
     count is_transcode (trace w') = 0%nat).
Proof.
  intros Hm Hs. split.
  - intros w. unfold validate_format, try_except, bind, emit, ret.
    cbn -[str_in first_n]. rewrite Hm. cbn -[str_in first_n].
    rewrite Hs. reflexivity.
  - intros v. unfold run.
    destruct (process_video_repeats env file_content _ _
                {| video := v; clock := 0; trace := [] |}
                (try_unsupported env file_content mime Hm Hs))
      as (e & w' & E & Hst & Htr & _).
    exists e, w'. split; [exact E|]. split; [exact Hst|].
    rewrite Htr. split; reflexivity.
Qed.

Lemma unsupported_mime_stops_at_validation_witness :
  (forall w, fst (validate_format pdf_upload short_content w)
             = inr (false, "Unsupported MIME type: " +:+ "application/pdf")) /\
  (forall v, exists e w',
     run (process_video pdf_upload short_content) v = (inl e, w') /\
     status (video w') = "failed" /\
     count is_scan (trace w') = 0%nat /\
     count is_transcode (trace w') = 0%nat).
Proof.
  apply (unsupported_mime_stops_at_validation pdf_upload short_content
           "application/pdf"); reflexivity.
Defined.




(** C3, as the code has it. When a gate turns the input down, whatever
    the cause, the attempt stops there and the status becomes [failed],
    but the decorator on [process_video] runs the whole pipeline again:
    libmagic is asked three times, with sleeps of 1, 2 and 4 seconds
    after the attempts, before the error is raised. No transcode or
    upload is made. *)
Theorem gate_rejection_is_retried (env : Env) (file_content : bytes) (v : Video) :
  gates_turn_down env file_content ->
  exists e' w',
    run (process_video env file_content) v = (inl e', w') /\
    status (video w') = "failed" /\
    count is_magic (trace w') = 3%nat /\
    sleeps (trace w') = three_sleeps /\
    count is_transcode (trace w') = 0%nat /\
    count is_upload (trace w') = 0%nat /\
    count is_cleanup (trace w') = 3%nat.
Proof.
  intros Hdown. unfold run.
  destruct (turned_down_attempts env file_content
              {| video := v; clock := 0; trace := [] |} Hdown)
    as (e' & w' & evs1 & evs2 & evs3 & m1 & m2 & m3 & E & Hst & Htr
        & [G1 M1] & [G2 M2] & [G3 M3]).
  exists e', w'. split; [exact E|]. split; [exact Hst|].
  rewrite Htr. cbn [trace video app].
  assert (Ht : forall evs, forallb gate_event evs = true ->
                           count is_transcode evs = 0%nat).
  { intros evs. apply count_none. intros [] ?; cbn in *; congruence. }
  assert (Hu : forall evs, forallb gate_event evs = true ->
                           count is_upload evs = 0%nat).
  { intros evs. apply count_none. intros [] ?; cbn in *; congruence. }
  assert (Hc : forall evs, forallb gate_event evs = true ->
                           count is_cleanup evs = 0%nat).
  { intros evs. apply count_none. intros [] ?; cbn in *; congruence. }
  rewrite !count_app, !count_attempt_events.
  rewrite M1, M2, M3, (Ht _ G1), (Ht _ G2), (Ht _ G3), (Hu _ G1), (Hu _ G2),
    (Hu _ G3), (Hc _ G1), (Hc _ G2), (Hc _ G3).
  split; [reflexivity|]. split; [|repeat split; reflexivity].
  unfold attempt_events. rewrite !sleeps_app.
  rewrite (sleeps_gate_only _ G1), (sleeps_gate_only _ G2), (sleeps_gate_only _ G3).
  reflexivity.
Qed.

Lemma gate_rejection_is_retried_witness :
  exists e' w',
    run (process_video unreadable short_content) fresh_video = (inl e', w') /\
    status (video w') = "failed" /\
    count is_magic (trace w') = 3%nat /\
    sleeps (trace w') = three_sleeps /\
    count is_transcode (trace w') = 0%nat /\
    count is_upload (trace w') = 0%nat /\
    count is_cleanup (trace w') = 3%nat.
Proof.
  apply (gate_rejection_is_retried unreadable short_content fresh_video).
  apply gate_rejects_turn_down, probe_turns_down.
  intros i. simpl. discriminate.
Defined.

(** C3, as stated, fails: a PDF is turned down by validation, and
    libmagic is asked about the same bytes three times before the call
    ends. *)
Lemma rejected_upload_is_validated_again :
  let r := run (process_video pdf_upload short_content) fresh_video in
  fst (run (validate_format pdf_upload short_content) fresh_video)
  = inr (false, "Unsupported MIME type: application/pdf") /\
  fst r = inl (ValueError
                 "Video validation failed: Unsupported MIME type: application/pdf") /\
  count is_magic (trace (snd r)) = 3%nat /\
  filter (fun e => is_sleep e = true) (trace (snd r))
  = [EvSleep 1; EvSleep 2; EvSleep 4].
Proof. vm_compute. repeat split; reflexivity. Qed.

End Gates.


(** ** Retries and cleanup *)

Section RetryAndCleanup.
Import Py Runtime Validators VideoModel Service Props Samples.

(** [generate_variant] makes no upload call. *)
Lemma generate_variant_no_upload (env : Env) (file_content : bytes)
    (quality : string) (config : VariantConfig) :
  frames (fun e => negb (is_upload e))
    (generate_variant env file_content quality config).
Proof.
  unfold generate_variant, retry. apply frames_retry_loop; [|reflexivity].
  unfold generate_variant_body. apply frames_try_except.
  - apply frames_bind; [now apply frames_emit | intros i].
    destruct (ffmpeg_run env _ _ _ _); apply frames_raise.
  - intros e. apply frames_bind; [now apply frames_log_error | intros _].
    apply frames_raise.
Qed.

(** C4, as the code has it. The decorator sleeps
    [initial_delay * backoff_factor ^ attempt] after a failed attempt and
    goes on with the next one. It wraps [generate_variant], the transcode
    alone, which makes no upload call: a transcoder that fails at every
    call is tried three times, with sleeps of 1, 2 and 4 seconds. It also
    wraps [process_video] as a whole: the attempt that ran out of
    transcodes is repeated, gates included, three times, and the call
    ends with the status [failed]. *)
Theorem transcode_retry_policy
    (env : Env) (file_content : bytes) (mime : string)
    (config : VariantConfig) (e : PyExc) :
  magic_from_buffer env (first_n 2048 file_content) = MimeType mime ->
  str_in mime SUPPORTED_MIME_TYPES = true ->
  (forall i, exists stderr, ffprobe env i file_content = ProbeExit 0 stderr) ->
  (forall i, exists st, scan_bytes env i file_content = ScanReport st false) ->
  In ("hd", config) VARIANT_CONFIGS ->
  (forall i, ffmpeg_run env i file_content "hd" config = FfmpegRaises e) ->
  let transcodes :=
    transcode_failure "hd" e 1 ++ transcode_failure "hd" e 2 ++
    transcode_failure "hd" e 4 in
  (forall (func : M bool) attempt n last w e0 w0,
     func w = (inl e0, w0) ->
     retry_loop RETRY_CONFIG func attempt (Datatypes.S n) last w
     = retry_loop RETRY_CONFIG func (Datatypes.S attempt) n (Some e0)
         (slept (1 * 2 ^ Z.of_nat attempt) w0)) /\
  (forall w, generate_variant env file_content "hd" config w
             = (inl e, logged transcodes w)) /\
  (forall quality cfg w r w',
     generate_variant env file_content quality cfg w = (r, w') ->
     exists evs, trace w' = trace w ++ evs /\ count is_upload evs = 0%nat) /\
  (forall v, exists e' w',
     run (process_video env file_content) v = (inl e', w') /\
     status (video w') = "failed" /\
     trace w' = three_attempts (gates_passed file_content ++ transcodes)
                  (str_exc e) (id v)).
Proof.
  intros Hm Hs Hprobe Hscan Hcfg Hf transcodes. split; [|split; [|split]].
  - intros func attempt n last w e0 w0 E.
    now apply (retry_loop_step RETRY_CONFIG func attempt n last w e0 w0).
  - intros w. now apply generate_variant_exhausts.
  - intros quality cfg w r w' E.
    destruct (generate_variant_no_upload env file_content quality cfg w r w' E)
      as [_ _ _ (evs & Htr & Hp)].
    exists evs. split; [exact Htr|].
    apply (count_none (fun e0 => negb (is_upload e0))); [|exact Hp].
    intros e0. now destruct (is_upload e0).
  - intros v. unfold run.
    destruct (process_video_repeats env file_content _ _
                {| video := v; clock := 0; trace := [] |}
                (try_transcoder_down env file_content mime config e
                   Hm Hs Hprobe Hscan Hcfg Hf))
      as (e' & w' & E & Hst & Htr & _).
    exists e', w'. split; [exact E|]. split; [exact Hst|]. exact Htr.
Qed.

Lemma transcode_retry_policy_witness :
  let e := Exc "Error" "ffmpeg error" in
  let config := {| cfg_width := 1920; cfg_height := 1080;
                   cfg_bitrate := "5000k"; cfg_fps := 30 |} in
  let transcodes :=
    transcode_failure "hd" e 1 ++ transcode_failure "hd" e 2 ++
    transcode_failure "hd" e 4 in
  (forall (func : M bool) attempt n last w e0 w0,
     func w = (inl e0, w0) ->
     retry_loop RETRY_CONFIG func attempt (Datatypes.S n) last w
     = retry_loop RETRY_CONFIG func (Datatypes.S attempt) n (Some e0)
         (slept (1 * 2 ^ Z.of_nat attempt) w0)) /\
  (forall w, generate_variant transcoder_down short_content "hd" config w
             = (inl e, logged transcodes w)) /\
  (forall quality cfg w r w',
     generate_variant transcoder_down short_content quality cfg w = (r, w') ->
     exists evs, trace w' = trace w ++ evs /\ count is_upload evs = 0%nat) /\
  (forall v, exists e' w',
     run (process_video transcoder_down short_content) v = (inl e', w') /\
     status (video w') = "failed" /\
     trace w' = three_attempts (gates_passed short_content ++ transcodes)
                  (str_exc e) (id v)).
Proof.
  apply (transcode_retry_policy transcoder_down short_content "video/mp4").
  - reflexivity.
  - reflexivity.
  - intros i. exists "". reflexivity.
  - intros i. exists "clean". reflexivity.
  - simpl. left. reflexivity.
  - intros i. reflexivity.
Defined.

(** C4, as stated, fails: when the transcoder is down, the retry is not
    confined to the transcode of [hd]. Each attempt of [process_video]
    makes three transcoder calls and no upload; what is then repeated is
    the whole pipeline, so validation and scan run three times too and
    the transcoder is called nine times for the one profile. *)
Lemma exhausted_transcode_reruns_the_gates :
  let r := run (process_video transcoder_down short_content) fresh_video in
  fst r = inl (Exc "Error" "ffmpeg error") /\
  status (video (snd r)) = "failed" /\
  count is_magic (trace (snd r)) = 3%nat /\
  count is_scan (trace (snd r)) = 3%nat /\
  count is_transcode (trace (snd r)) = 9%nat /\
  count is_upload (trace (snd r)) = 0%nat /\
  sleeps (trace (snd r))
  = [EvSleep 1; EvSleep 2; EvSleep 4; EvSleep 1;
     EvSleep 1; EvSleep 2; EvSleep 4; EvSleep 2;
     EvSleep 1; EvSleep 2; EvSleep 4; EvSleep 4].
Proof. vm_compute. repeat split; reflexivity. Qed.

(** C7, as the code has it. Every attempt ends in the [except] block,
    which sets the status to [failed], logs the processing error and then
    calls the cleanup of the storage adapter, unguarded: when that call
    raises, its exception is what the attempt raises, in place of the
    processing error, and nothing is logged about it. The status stays
    [failed] either way, and a call makes three cleanup calls. *)
Theorem cleanup_runs_unguarded (env : Env) (file_content : bytes) (w : World) :
  (exists e w1 w',
     process_video_try env file_content w = (inl e, w1) /\
     process_video_body env file_content w
     = (inl (default e
               (cleanup_failed_upload env (Datatypes.S (length (trace w1)))
                  (id (video w)))),
        w') /\
     status (video w') = "failed" /\
     trace w' = trace w1 ++ [EvLogError ("Video processing failed: " +:+ str_exc e);
                             EvCleanup (id (video w))]) /\
  (exists e' w',
     process_video env file_content w = (inl e', w') /\
     status (video w') = "failed" /\
     exists evs, trace w' = trace w ++ evs /\ count is_cleanup evs = 3%nat).
Proof.
  split.
  - destruct (process_video_try_raises env file_content w) as (e & w1 & E).
    pose proof (frames_try_not_cleanup env file_content w _ _ E) as [Hid _ _ _].
    exists e, w1, (failed_world e w1). split; [exact E|]. split; [|split].
    + rewrite (process_video_body_eq env file_content w e w1 E).
      unfold failed_error. rewrite length_app, Hid. cbn [length].
      now rewrite Nat.add_1_r.
    + reflexivity.
    + cbn. rewrite Hid, <- app_assoc. reflexivity.
  - destruct (process_video_fails env file_content w)
      as (e' & w' & E & Hs & _ & _ & _ & Hc).
    exists e', w'. auto.
Qed.

(** C7, as stated, fails: validation turns a PDF down and the cleanup
    call raises; the call then raises the error of the cleanup, not the
    validation error, and the log has no line about the cleanup. *)
Lemma cleanup_error_is_raised :
  let r := run (process_video cleanup_down short_content) fresh_video in
  fst r = inl (Exc "ClientError" "AccessDenied") /\
  status (video (snd r)) = "failed" /\
  trace (snd r)
  = three_attempts [EvMagic short_content]
      "Video validation failed: Unsupported MIME type: application/pdf"
      (id fresh_video).
Proof. vm_compute. repeat split; reflexivity. Qed.

End RetryAndCleanup.


(** ** The variants of a video, and the empty upload *)

Section Variants.
Import Py Runtime Validators VideoModel Service Props Samples.

(** [add_variant] leaves the variants alone when it raises, and adds one
    entry of the requested quality at the end when it returns. *)
Lemma add_variant_appends (q : string) (u : option string)
    (md : VideoMetadata) (dc : list (string * PyVal)) (w : World) :
  let r := add_variant q u md dc w in
  (raised (fst r) /\ variants (video (snd r)) = variants (video w)) \/
  (exists x, fst r = inr x /\ quality x = q /\
             variants (video (snd r)) = variants (video w) ++ [x]).
Proof.
  unfold add_variant.
  destruct (str_in q VIDEO_VARIANTS); cbn [negb].
  - destruct u as [url|];
      [destruct (default (VStr "default") (dict_get "provider" dc))|];
      try (left; split; [eexists|]; reflexivity).
    right. eexists. cbn. repeat split; reflexivity.
  - left. split; [eexists|]; reflexivity.
Qed.

(** An operation on a video, with its exception caught by the caller,
    keeps the variants already held at the head of the list; an
    operation of the pipeline leaves the list as it is. *)
Lemma run_op_variants (op : PipelineOp) (w : World) :
  let w' := snd (try_except (run_op op) (fun _ => ret tt) w) in
  variants (video w) `prefix_of` variants (video w') /\
  (pipeline_op op = true -> variants (video w') = variants (video w)).
Proof.
  destruct op as [env file_content | s | q u md dc]; cbn [run_op pipeline_op].
  - destruct (process_video_fails env file_content w)
      as (e & w' & E & _ & _ & Hv & _).
    unfold try_except, bind. rewrite E. cbn [snd ret]. rewrite Hv.
    split; [reflexivity | auto].
  - assert (H : variants (video (snd (try_except (update_status s)
                                        (fun _ => ret tt) w)))
                = variants (video w)).
    { unfold try_except, update_status.
      destruct (str_in s VIDEO_STATUS); reflexivity. }
    cbn zeta. rewrite H. split; [reflexivity | auto].
  - pose proof (add_variant_appends q u md dc w) as Ha. cbn zeta in Ha.
    unfold try_except, bind.
    destruct (add_variant q u md dc w) as [[e | x] w'] eqn:E;
      unfold ret; cbn [fst snd] in *.
    + destruct Ha as [[_ ->] | (x & Hx & _)]; [|discriminate].
      split; [reflexivity | discriminate].
    + destruct Ha as [[[e He] _] | (y & _ & _ & ->)]; [discriminate|].
      split; [now apply prefix_app_r | discriminate].
Qed.

Lemma run_ops_variants (ops : list PipelineOp) (w : World) :
  variants (video w) `prefix_of` variants (video (snd (run_ops ops w))) /\
  (forallb pipeline_op ops = true ->
   variants (video (snd (run_ops ops w))) = variants (video w)).
Proof.
  revert w. induction ops as [|op ops IH]; intros w; cbn [run_ops forallb].
  - split; [reflexivity | auto].
  - pose proof (run_op_variants op w) as [Hp He]. cbn zeta in Hp, He.
    destruct (try_except (run_op op) (fun _ => ret tt) w) as [[e | []] w1] eqn:E;
      cbn [snd] in *.
    + exfalso. revert E. unfold try_except, ret.
      destruct (run_op op w) as [[e' | []] w2]; discriminate.
    + rewrite !(bind_returns _ _ _ _ _ E). destruct (IH w1) as [IHp IHe]. split.
      * etransitivity; eassumption.
      * intros H. apply andb_true_iff in H as [Hop Hops].
        rewrite (IHe Hops). now apply He.
Qed.

(** C6. The variants are append-only and their quality tags stay
    distinct. Any sequence of calls of [process_video], status
    transitions and calls of [add_variant] leaves the variants already
    held in place, in order, at the head of the list; [add_variant] adds
    at most one entry, at the end, tagged with the requested quality; and
    the operations of the pipeline, retried runs of [process_video]
    included, add nothing, so that tags that were distinct stay so. *)
Theorem variants_append_only (ops : list PipelineOp) (w : World) :
  NoDup (qualities (video w)) ->
  let w' := snd (run_ops ops w) in
  variants (video w) `prefix_of` variants (video w') /\
  (forallb pipeline_op ops = true ->
   variants (video w') = variants (video w) /\ NoDup (qualities (video w'))) /\
  (forall q u md dc w0,
     variants (video (snd (add_variant q u md dc w0))) = variants (video w0) \/
     exists x, quality x = q /\
       variants (video (snd (add_variant q u md dc w0)))
       = variants (video w0) ++ [x]).
Proof.
  intros Hnd. cbn zeta. destruct (run_ops_variants ops w) as [Hp He].
  split; [exact Hp|]. split.
  - intros Hops. split; [now apply He|].
    unfold qualities. now rewrite (He Hops).
  - intros q u md dc w0.
    destruct (add_variant_appends q u md dc w0) as [[_ H] | (x & _ & Hx & H)].
    + now left.
    + right. now exists x.
Qed.

Lemma variants_append_only_witness :
  let ops := [OpProcess healthy sample_content; OpStatus "processing";
              OpProcess infected short_content] in
  let w := {| video := video_with_thumbnail; clock := 0%nat; trace := [] |} in
  let w' := snd (run_ops ops w) in
  variants (video w) `prefix_of` variants (video w') /\
  (forallb pipeline_op ops = true ->
   variants (video w') = variants (video w) /\ NoDup (qualities (video w'))) /\
  (forall q u md dc w0,
     variants (video (snd (add_variant q u md dc w0))) = variants (video w0) \/
     exists x, quality x = q /\
       variants (video (snd (add_variant q u md dc w0)))
       = variants (video w0) ++ [x]).
Proof.
  apply (variants_append_only
           [OpProcess healthy sample_content; OpStatus "processing";
            OpProcess infected short_content]
           {| video := video_with_thumbnail; clock := 0%nat; trace := [] |}).
  simpl. apply NoDup_singleton.
Defined.

(** The function defined as [validate_video_file] turns the empty buffer
    down first thing, without asking libmagic. *)
Lemma validate_video_file_empty (str_lower : string -> string)
    (magic : bytes -> MagicResult) (filename : string) (strict : bool) :
  validate_video_file_wrapped str_lower magic [] filename strict
  = (false, "Empty file content", ∅).
Proof. reflexivity. Qed.

(** C9. [validate_format], the validator of the pipeline, has no guard
    for the empty buffer: it hands the buffer to libmagic and reports what
    that says, here the MIME type of an empty file, and would accept the
    buffer if libmagic and ffprobe did. *)
Theorem validate_format_empty_buffer :
  run (validate_format empty_upload []) fresh_video
  = (inr (false, "Unsupported MIME type: application/x-empty"),
     {| video := fresh_video; clock := 0%nat; trace := [EvMagic []] |}) /\
  fst (run (validate_format healthy []) fresh_video) = inr (true, "").
Proof. split; reflexivity. Qed.

End Variants.


(** ** The retry decorator *)

Section RetryDecorator.
Import Py Runtime Validators VideoModel Service Props Schedule Samples.

Lemma logged_nil (w : World) : logged [] w = w.
Proof. destruct w. unfold logged. cbn. now rewrite app_nil_r. Qed.

Lemma logged_logged (a b : list Event) (w : World) :
  logged b (logged a w) = logged (a ++ b) w.
Proof. unfold logged. cbn. now rewrite app_assoc. Qed.

Lemma slept_logged (d : Z) (w : World) : slept d w = logged [EvSleep d] w.
Proof. reflexivity. Qed.

Lemma retry_loop_exhausted {A} (config : RetryConfig) (func : M (S := World) A)
    (evs : list Event) (e : PyExc) :
  (forall w, func w = (inl e, logged evs w)) ->
  forall n attempt last w,
    retry_loop config func attempt n (Some last) w
    = (inl (match n with O => last | _ => e end),
       logged (failed_attempts config evs attempt n) w).
Proof.
  intros Hf. induction n as [|n IH]; intros attempt last w.
  - cbn. now rewrite logged_nil.
  - rewrite (retry_loop_step config func attempt n (Some last) w e _ (Hf w)).
    rewrite IH. rewrite slept_logged, !logged_logged.
    cbn [failed_attempts app]. destruct n; reflexivity.
Qed.

(** X1. A decorated function that fails the same way at every call is
    called [max_attempts] times; the decorator sleeps
    [initial_delay * backoff_factor ^ k] after the failed attempt [k], the
    last one included, and then raises the error of the function. *)
Theorem retry_exhausted {A} (config : RetryConfig) (func : M (S := World) A)
    (evs : list Event) (e : PyExc) (w : World) :
  (forall w, func w = (inl e, logged evs w)) ->
  (0 < max_attempts config)%nat ->
  retry config func w
  = (inl e, logged (failed_attempts config evs 0 (max_attempts config)) w).
Proof.
  intros Hf Hn. unfold retry.
  destruct (max_attempts config) as [|n]; [lia|].
  rewrite (retry_loop_step config func 0 n None w e _ (Hf w)).
  rewrite (retry_loop_exhausted config func evs e Hf).
  rewrite slept_logged, !logged_logged. cbn [failed_attempts app].
  destruct n; reflexivity.
Qed.

Lemma retry_exhausted_witness :
  retry RETRY_CONFIG (raise (A := bool) (ValueError "boom"))
    {| video := fresh_video; clock := 0; trace := [] |}
  = (inl (ValueError "boom"),
     logged [EvSleep 1; EvSleep 2; EvSleep 4]
       {| video := fresh_video; clock := 0; trace := [] |}).
Proof.
  apply (retry_exhausted RETRY_CONFIG (raise (ValueError "boom")) []
           (ValueError "boom")).
  - intros w. unfold raise. now rewrite logged_nil.
  - simpl. lia.
Defined.

Lemma retry_loop_recovers {A} (config : RetryConfig) (func : M (S := World) A)
    (evs : list Event) (e : PyExc) (a : A) (w' : World) :
  forall k attempt n last w,
    (forall j, (j < k)%nat ->
       func (logged (failed_attempts config evs attempt j) w)
       = (inl e, logged evs (logged (failed_attempts config evs attempt j) w))) ->
    func (logged (failed_attempts config evs attempt k) w) = (inr a, w') ->
    (k < n)%nat ->
    retry_loop config func attempt n last w = (inr a, w').
Proof.
  induction k as [|k IH]; intros attempt n last w Hfail Hok Hk.
  - destruct n as [|n]; [lia|]. cbn [failed_attempts] in Hok.
    rewrite logged_nil in Hok. now apply retry_loop_return.
  - destruct n as [|n]; [lia|].
    pose proof (Hfail 0%nat ltac:(lia)) as H0. cbn [failed_attempts] in H0.
    rewrite logged_nil in H0.
    rewrite (retry_loop_step config func attempt n last w e _ H0).
    rewrite slept_logged, logged_logged.
    apply IH; [| |lia].
    + intros j Hj. rewrite !logged_logged.
      pose proof (Hfail (Datatypes.S j) ltac:(lia)) as Hs.
      cbn [failed_attempts] in Hs. rewrite !logged_logged in Hs.
      rewrite <- !app_assoc. cbn [app]. rewrite <- !app_assoc in Hs. exact Hs.
    + rewrite logged_logged. cbn [failed_attempts] in Hok.
      rewrite <- app_assoc. exact Hok.
Qed.

(** X2. A decorated function that fails [k] times and then returns, with
    [k] below [max_attempts], gives the value of that call: the decorator
    has slept after the [k] failures only, and makes no further call. *)
Theorem retry_recovers {A} (config : RetryConfig) (func : M (S := World) A)
    (evs : list Event) (e : PyExc) (a : A) (k : nat) (w w' : World) :
  (forall j, (j < k)%nat ->
     func (logged (failed_attempts config evs 0 j) w)
     = (inl e, logged evs (logged (failed_attempts config evs 0 j) w))) ->
  func (logged (failed_attempts config evs 0 k) w) = (inr a, w') ->
  (k < max_attempts config)%nat ->
  retry config func w = (inr a, w').
Proof.
  intros Hfail Hok Hk. unfold retry.
  now apply (retry_loop_recovers config func evs e a w' k).
Qed.

Lemma retry_recovers_witness :
  retry RETRY_CONFIG flaky {| video := fresh_video; clock := 0; trace := [] |}
  = (inr true, {| video := fresh_video; clock := 0; trace := [EvSleep 1] |}).
Proof.
  apply (retry_recovers RETRY_CONFIG flaky []
           (Exc "ConnectionError" "connection reset") true 1%nat).
  - intros j Hj. assert (j = 0%nat) as -> by lia. reflexivity.
  - reflexivity.
  - simpl. lia.
Defined.

End RetryDecorator.

(** ** The stages, one by one *)

Section StageContracts.
Import Py Runtime Validators VideoModel Service Props Schedule Samples.

Variable env : Env.
Variable file_content : bytes.

(** X3. [generate_variant] never returns. Whatever the transcoder
    answers, it is called three times, each call is followed by an error
    line on the log and by a sleep, of 1, 2 and 4 seconds, and the third
    error is raised; the video is not touched and nothing is uploaded. *)
Theorem generate_variant_never_returns (quality : string)
    (config : VariantConfig) (w : World) :
  exists e1 e2 e3,
    generate_variant env file_content quality config w
    = (inl e3,
       logged ([EvTranscode quality;
                EvLogError ("Variant generation failed: " +:+ str_exc e1);
                EvSleep 1] ++
               [EvTranscode quality;
                EvLogError ("Variant generation failed: " +:+ str_exc e2);
                EvSleep 2] ++
               [EvTranscode quality;
                EvLogError ("Variant generation failed: " +:+ str_exc e3);
                EvSleep 4]) w).
Proof.
  destruct (generate_variant_body_fails env file_content quality config w) as [e1 E1].
  destruct (generate_variant_body_fails env file_content quality config
              (slept 1 (logged [EvTranscode quality;
                 EvLogError ("Variant generation failed: " +:+ str_exc e1)] w)))
    as [e2 E2].
  destruct (generate_variant_body_fails env file_content quality config
              (slept 2 (logged [EvTranscode quality;
                 EvLogError ("Variant generation failed: " +:+ str_exc e2)]
                (slept 1 (logged [EvTranscode quality;
                   EvLogError ("Variant generation failed: " +:+ str_exc e1)] w)))))
    as [e3 E3].
  exists e1, e2, e3.
  unfold generate_variant, retry. cbn [max_attempts RETRY_CONFIG].
  rewrite (retry_loop_step _ _ _ _ _ _ _ _ E1).
  change (initial_delay RETRY_CONFIG * backoff_factor RETRY_CONFIG ^ Z.of_nat 0)
    with 1.
  rewrite (retry_loop_step _ _ _ _ _ _ _ _ E2).
  change (initial_delay RETRY_CONFIG * backoff_factor RETRY_CONFIG ^ Z.of_nat 1)
    with 2.
  rewrite (retry_loop_step _ _ _ _ _ _ _ _ E3).
  change (initial_delay RETRY_CONFIG * backoff_factor RETRY_CONFIG ^ Z.of_nat 2)
    with 4.
  cbn [retry_loop]. unfold raise, slept, logged. cbn [trace video clock].
  rewrite <- !app_assoc. reflexivity.
Qed.

End StageContracts.


(** ** Contracts of the gates, the upload and [add_variant] *)

Section GateContracts.
Import Py Runtime Validators VideoModel Service Props Schedule Samples.

Variable env : Env.
Variable file_content : bytes.

Lemma append_nonempty (a b : string) : a <> "" -> a +:+ b <> "".
Proof. destruct a; [congruence|]. cbn. discriminate. Qed.

(** X4. [validate_format] never raises. It answers [True] only when
    libmagic names a MIME type of the allow-list for the first 2048 bytes
    and ffprobe, called next, exits with 0; a [False] always comes with a
    reason. It makes no other external call. *)
Theorem validate_format_contract (w : World) :
  exists ok msg evs,
    validate_format env file_content w = (inr (ok, msg), logged evs w) /\
    forallb validation_event evs = true /\
    (ok = true ->
     msg = "" /\
     exists mime stderr,
       magic_from_buffer env (first_n 2048 file_content) = MimeType mime /\
       In mime SUPPORTED_MIME_TYPES /\
       ffprobe env (length (trace w) + 1) file_content = ProbeExit 0 stderr) /\
    (ok = false -> msg <> "").
Proof.
  unfold validate_format, try_except, bind, emit, ret, raise.
  cbn -[str_in first_n].
  destruct (magic_from_buffer env (first_n 2048 file_content)) as [mime | e] eqn:Hm;
    cbn -[str_in first_n].
  - destruct (str_in mime SUPPORTED_MIME_TYPES) eqn:Hs; cbn -[str_in first_n].
    + destruct (ffprobe env _ file_content) as [rc stderr | e] eqn:Hp;
        cbn -[str_in first_n].
      * rewrite length_app in Hp. cbn [length] in Hp.
        destruct (rc =? 0) eqn:Hrc; cbn -[str_in first_n].
        -- apply Z.eqb_eq in Hrc. subst rc.
           exists true, "", [EvMagic (first_n 2048 file_content); EvProbe].
           split; [unfold logged; cbn; now rewrite <- app_assoc|].
           split; [reflexivity|]. split; [|discriminate]. intros _.
           split; [reflexivity|]. exists mime, stderr.
           split; [reflexivity|]. split; [exact (str_in_In _ _ Hs) | exact Hp].
        -- exists false, ("Invalid video format: " +:+ stderr),
             [EvMagic (first_n 2048 file_content); EvProbe].
           split; [unfold logged; cbn; now rewrite <- app_assoc|].
           split; [reflexivity|]. split; [discriminate|]. intros _.
           now apply append_nonempty.
      * exists false, ("Format validation failed: " +:+ str_exc e),
          [EvMagic (first_n 2048 file_content); EvProbe].
        split; [unfold logged; cbn; now rewrite <- app_assoc|].
        split; [reflexivity|]. split; [discriminate|]. intros _.
        now apply append_nonempty.
    + exists false, ("Unsupported MIME type: " +:+ mime),
        [EvMagic (first_n 2048 file_content)].
      split; [reflexivity|]. split; [reflexivity|].
      split; [discriminate|]. intros _. now apply append_nonempty.
  - exists false, ("Format validation failed: " +:+ str_exc e),
      [EvMagic (first_n 2048 file_content)].
    split; [reflexivity|]. split; [reflexivity|].
    split; [discriminate|]. intros _. now apply append_nonempty.
Qed.

(** X5. [scan_security] never raises and calls the scanner once. It
    answers [True] exactly when the scanner returns a report without
    malware; a malware report and an exception of the scanner both give
    [False] with a reason. *)
Theorem scan_security_contract (w : World) :
  exists safe msg evs,
    scan_security env file_content w = (inr (safe, msg), logged evs w) /\
    (evs = [EvScan] \/ evs = [EvScan; EvLogInfo "Security scan completed"]) /\
    (safe = true <->
     exists st, scan_bytes env (length (trace w)) file_content = ScanReport st false) /\
    (safe = false -> msg <> "").
Proof.
  unfold scan_security, try_except, bind, emit, log_info, ret, raise.
  cbn -[str_in first_n].
  destruct (scan_bytes env (length (trace w)) file_content) as [st [|] | e] eqn:Hs;
    cbn -[str_in first_n].
  - exists false, "Malware detected in video content",
      [EvScan; EvLogInfo "Security scan completed"].
    split; [unfold logged; cbn; now rewrite <- app_assoc|].
    split; [now right|]. split; [|discriminate].
    split; [discriminate | intros [st' H]; discriminate].
  - exists true, "", [EvScan; EvLogInfo "Security scan completed"].
    split; [unfold logged; cbn; now rewrite <- app_assoc|].
    split; [now right|]. split; [|discriminate].
    split; [intros _; now exists st | reflexivity].
  - exists false, ("Security scan failed: " +:+ str_exc e), [EvScan].
    split; [reflexivity|]. split; [now left|]. split.
    + split; [discriminate | intros [st' H]; discriminate].
    + intros _. now apply append_nonempty.
Qed.

(** X6. [upload_variant] never raises and makes one storage call, on the
    key [videos/<id>/variants/<quality>.mp4]. It reports success exactly
    when that call does not raise, and then returns the CDN URL of the
    key; otherwise it returns no URL and a reason. *)
Theorem upload_variant_contract (content : bytes) (video_id quality : string)
    (w : World) :
  exists ok err url evs,
    upload_variant env content video_id quality w
    = (inr (ok, err, url), logged evs w) /\
    filter (fun e => is_upload e = true) evs
    = [EvUpload (variant_key video_id quality)] /\
    (ok = true <->
     put_object env (length (trace w)) (variant_key video_id quality) content = None) /\
    (ok = true ->
     err = "" /\
     url = Some ("https://" +:+ cdn_domain env +:+ "/" +:+
                 variant_key video_id quality)) /\
    (ok = false -> url = None /\ err <> "").
Proof.
  unfold upload_variant, bind, emit, log_info, log_error, ret.
  fold (variant_key video_id quality). cbn -[variant_key].
  destruct (put_object env (length (trace w)) (variant_key video_id quality) content)
    as [e|] eqn:Hp; cbn -[variant_key].
  - exists false, ("Variant upload failed: " +:+ str_exc e), None,
      [EvUpload (variant_key video_id quality);
       EvLogError ("Variant upload failed: " +:+ str_exc e)].
    split; [unfold logged; cbn; now rewrite <- app_assoc|].
    split; [reflexivity|]. split; [split; discriminate|].
    split; [discriminate|]. intros _. split; [reflexivity|].
    now apply append_nonempty.
  - exists true, "",
      (Some ("https://" +:+ cdn_domain env +:+ "/" +:+ variant_key video_id quality)),
      [EvUpload (variant_key video_id quality);
       EvLogInfo "Variant upload completed"].
    split; [unfold logged; cbn; now rewrite <- app_assoc|].
    split; [reflexivity|]. split; [split; reflexivity|].
    split; [intros _; split; reflexivity | discriminate].
Qed.

End GateContracts.


(** ** Order of the stages, storage keys, and [add_variant] *)

Section StageOrder.
Import Py Runtime Validators VideoModel Service Props Schedule Samples MoreSamples.

Lemma validation_is_gate (evs : list Event) :
  forallb validation_event evs = true -> forallb gate_event evs = true.
Proof.
  induction evs as [|e evs IH]; [reflexivity|]. cbn [forallb].
  intros H. apply andb_true_iff in H as [He Hevs].
  rewrite (IH Hevs), andb_true_r. now destruct e.
Qed.

Lemma bind_inv {A B} (m : M (S := World) A) (k : A -> M B) (w : World)
    (r : PyExc + B) (w' : World) :
  bind m k w = (r, w') ->
  (exists e, m w = (inl e, w') /\ r = inl e) \/
  (exists a w0, m w = (inr a, w0) /\ k a w0 = (r, w')).
Proof.
  unfold bind. destruct (m w) as [[e | a] w0]; intros E.
  - left. exists e. now inversion E.
  - right. now exists a, w0.
Qed.

(** X9. In an attempt, nothing is transcoded or uploaded before the
    scanner has reported the input free of malware: either the attempt
    makes calls of the two gates only, or its events are validation
    calls, then a scanner call that returned a report without malware,
    then the rest. *)
Theorem transcode_follows_clean_scan (env : Env) (file_content : bytes)
    (w : World) (r : PyExc + bool) (w1 : World) :
  process_video_try env file_content w = (r, w1) ->
  exists evs,
    trace w1 = trace w ++ evs /\
    (forallb gate_event evs = true \/
     exists pre post st,
       evs = pre ++ EvScan :: post /\
       forallb validation_event pre = true /\
       scan_bytes env (length (trace w ++ pre)) file_content = ScanReport st false).
Proof.
  unfold process_video_try, process_video_try_with. intros E.
  apply bind_inv in E as [(e & E & _) | ([] & w0 & E0 & E)].
  { inversion E. }
  assert (Ht0 : trace w0 = trace w) by (inversion E0; reflexivity). clear E0.
  destruct (validate_format_cases env file_content w0)
    as (ok & msg & evs_v & Ev & Hshape_v).
  assert (Hv : forallb validation_event evs_v = true)
    by (destruct Hshape_v as [-> | ->]; reflexivity).
  apply bind_inv in E as [(e & E & _) | ([ok' msg'] & wv & E0 & E)];
    [rewrite Ev in E; discriminate|].
  rewrite Ev in E0. inversion E0; subst ok' msg' wv. clear E0.
  destruct ok; cbn [negb] in E.
  2:{ inversion E; subst. exists evs_v. cbn. rewrite Ht0.
      split; [reflexivity|]. left. now apply validation_is_gate. }
  destruct (scan_security_cases env file_content (logged evs_v w0))
    as (safe & smsg & evs_s & Es & Hshape).
  apply bind_inv in E as [(e & E & _) | ([safe' smsg'] & ws & E0 & E)];
    [rewrite Es in E; discriminate|].
  rewrite Es in E0. inversion E0; subst safe' smsg' ws. clear E0.
  destruct safe; cbn [negb] in E.
  2:{ inversion E; subst. exists (evs_v ++ evs_s). cbn. rewrite Ht0, app_assoc.
      split; [reflexivity|]. left. rewrite forallb_app.
      rewrite (validation_is_gate _ Hv). destruct Hshape as [-> | ->]; reflexivity. }
  destruct (scan_security_true env file_content _ _ _ Es) as [st Hst].
  cbn [logged trace] in Hst.
  match type of E with ?K _ = _ => assert (HK : frames not_cleanup K) end.
  { apply frames_bind; [apply frames_update_status | intros _].
    apply frames_bind.
    - apply frames_for_each. intros [quality config] Hin.
      apply frames_bind;
        [apply frames_generate_variant;
           auto using gate_not_cleanup, work_not_cleanup | intros [vc vm]].
      apply frames_bind; [apply frames_get | intros w2].
      apply frames_bind;
        [apply frames_bind;
           [apply frames_upload_variant;
              auto using gate_not_cleanup, work_not_cleanup
           | intros; apply frames_await_tuple]
        | intros [[success error] url]].
      destruct (negb success); [apply frames_raise|].
      apply frames_bind; [|intros; apply frames_ret].
      apply frames_add_variant_rejected. eapply profiles_rejected; eassumption.
    - intros _. apply frames_bind; [apply frames_update_status | intros _].
      apply frames_bind; [|intros; apply frames_ret].
      apply frames_log_info. reflexivity. }
  apply HK in E as [_ _ _ (evs_k & Tk & _)]. cbn [logged trace] in Tk.
  assert (exists tail, evs_s = EvScan :: tail) as [tail ->]
    by (destruct Hshape as [-> | ->]; eauto).
  exists (evs_v ++ (EvScan :: tail) ++ evs_k). split.
  - rewrite Tk, Ht0. now rewrite <- !app_assoc.
  - right. exists evs_v, (tail ++ evs_k), st.
    split; [reflexivity|]. split; [exact Hv|]. rewrite <- Ht0. exact Hst.
Qed.

Lemma transcode_follows_clean_scan_witness :
  exists evs,
    trace (snd (process_video_try healthy short_content fresh_world))
    = trace fresh_world ++ evs /\
    (forallb gate_event evs = true \/
     exists pre post st,
       evs = pre ++ EvScan :: post /\
       forallb validation_event pre = true /\
       scan_bytes healthy (length (trace fresh_world ++ pre)) short_content
       = ScanReport st false).
Proof.
  apply (transcode_follows_clean_scan healthy short_content fresh_world
           (fst (process_video_try healthy short_content fresh_world))).
  vm_compute. reflexivity.
Defined.

End StageOrder.


(** ** Storage keys and [add_variant] *)

Section KeysAndVariants.
Import Py Runtime Validators VideoModel Service Props Schedule Samples MoreSamples.

Lemma append_length (a b : string) :
  String.length (a +:+ b) = (String.length a + String.length b)%nat.
Proof.
  induction a as [|x a IH]; [reflexivity|].
  rewrite append_cons. cbn [String.length Nat.add]. now rewrite IH.
Qed.

Lemma append_inj_l (s a b : string) : s +:+ a = s +:+ b -> a = b.
Proof.
  induction s as [|x s IH]; [auto|].
  rewrite !append_cons. intros H. injection H. auto.
Qed.

Lemma append_inj_r (t a b : string) : a +:+ t = b +:+ t -> a = b.
Proof.
  revert b. induction a as [|x a IH]; intros [|y b] H.
  - reflexivity.
  - apply (f_equal String.length) in H.
    rewrite append_cons in H. cbn [String.length] in H.
    rewrite !append_length in H. cbn [String.length Nat.add] in H. lia.
  - apply (f_equal String.length) in H.
    rewrite append_cons in H. cbn [String.length] in H.
    rewrite !append_length in H. cbn [String.length Nat.add] in H. lia.
  - rewrite !append_cons in H. injection H as -> H. f_equal. now apply IH.
Qed.

(** X7. The storage key tells the variants of a video apart, and the
    videos of a quality: two uploads of one video go to the same key only
    for the same quality, and two uploads of one quality only for the
    same video. *)
Theorem variant_key_injective (v1 v2 q1 q2 : string) :
  variant_key v1 q1 = variant_key v2 q2 ->
  (v1 = v2 -> q1 = q2) /\ (q1 = q2 -> v1 = v2).
Proof.
  unfold variant_key. intros H. apply append_inj_l in H. split.
  - intros ->. apply append_inj_l, append_inj_l in H. now apply append_inj_r in H.
  - intros ->. now apply append_inj_r in H.
Qed.

Lemma variant_key_injective_witness :
  ("4f1c" = "4f1c" -> "hd" = "hd") /\ ("hd" = "hd" -> "4f1c" = "4f1c").
Proof.
  apply (variant_key_injective "4f1c" "4f1c" "hd" "hd"). reflexivity.
Defined.

(** X8. [add_variant] changes the video all at once or not at all. When
    it raises, the world is as before. When it returns, the quality is one
    of [VIDEO_VARIANTS], the variant returned carries the arguments, it is
    the last of the variants, and the history holds its metadata under
    [variant_<quality>_added]; status and trace are as before. *)
Theorem add_variant_contract (q : string) (u : option string)
    (md : VideoMetadata) (dc : list (string * PyVal)) (w : World) :
  let r := add_variant q u md dc w in
  (raised (fst r) -> snd r = w) /\
  (forall x, fst r = inr x ->
     In q VIDEO_VARIANTS /\
     u = Some (url x) /\ quality x = q /\ metadata x = md /\
     delivery_config x = dc /\
     variants (video (snd r)) = variants (video w) ++ [x] /\
     processing_history (video (snd r)) !! ("variant_" +:+ q +:+ "_added")
     = Some (VDict [("timestamp", VTime (Datatypes.S (clock w)));
                    ("metadata", metadata_dict md)]) /\
     status (video (snd r)) = status (video w) /\
     trace (snd r) = trace w).
Proof.
  unfold add_variant.
  destruct (str_in q VIDEO_VARIANTS) eqn:Hq; cbn [negb].
  - destruct u as [url0|].
    + destruct (default (VStr "default") (dict_get "provider" dc)) eqn:Hp;
        try (split; [reflexivity | intros x Hx; discriminate]).
      cbn. split; [intros [e He]; discriminate|].
      intros x Hx. inversion Hx; subst x. cbn.
      split; [exact (str_in_In _ _ Hq)|].
      repeat split; try reflexivity. apply lookup_insert_eq.
    + split; [reflexivity | intros x Hx; discriminate].
  - split; [reflexivity | intros x Hx; discriminate].
Qed.

End KeysAndVariants.


(** ** More on upload validation *)

Section UploadValidationMore.
Import Py Runtime Validators Samples.

(** Strict and lenient validation, in the terms of the code. *)
Lemma validate_video_file_cases
    (str_lower : string -> string) (magic : bytes -> MagicResult)
    (content : bytes) (filename : string) :
  (fst (fst (validate_video_file_wrapped str_lower magic content filename true)) = true <->
   fst (fst (validate_video_file_wrapped str_lower magic content filename false)) = true /\
   (1024 <= length content)%nat /\
   (endswith (last_n 32 content) term_mdat
    || endswith (last_n 32 content) term_moov) = true) /\
  (forall strict,
     fst (fst (validate_video_file_wrapped str_lower magic content filename strict)) = true ->
     str_in (file_ext str_lower filename) ALLOWED_VIDEO_FORMATS = true /\
     exists mime md,
       validate_video_file_wrapped str_lower magic content filename strict = (true, "", md) /\
       magic (first_n 2048 content) = MimeType mime /\
       md !! "size" = Some (VInt (Z.of_nat (length content))) /\
       md !! "extension" = Some (VStr (file_ext str_lower filename)) /\
       md !! "mime_type" = Some (VStr mime)).
Proof.
  unfold validate_video_file_wrapped.
  destruct content as [|b rest]; [cbn [fst]; split; [split|]; intros; try easy; tauto|].
  remember (b :: rest) as c eqn:Hc.
  assert (Hlen : (0 < length c)%nat) by (subst c; cbn; lia). clear Hc b rest.
  destruct (MAX_VIDEO_SIZE_BYTES <? Z.of_nat (length c));
    [cbn [fst]; split; [split|]; intros; try easy; tauto|].
  destruct (str_in (file_ext str_lower filename) ALLOWED_VIDEO_FORMATS) eqn:Hext;
    cbn [negb]; [|cbn [fst]; split; [split|]; intros; try easy; tauto].
  destruct (magic (first_n 2048 c)) as [mime | e];
    [|cbn [fst]; split; [split|]; intros; try easy; tauto].
  destruct (str_in mime VALID_MIME_TYPES); cbn [negb];
    [|cbn [fst]; split; [split|]; intros; try easy; tauto].
  destruct (startswith c header_000 || startswith c header_001); cbn [negb];
    [|cbn [fst]; split; [split|]; intros; try easy; tauto].
  unfold any. cbn [existsb]. rewrite orb_false_r.
  assert (Hmd : forall md : gmap string PyVal,
            md = <[ "mime_type" := VStr mime ]>
                   (<[ "extension" := VStr (file_ext str_lower filename) ]>
                      {[ "size" := VInt (Z.of_nat (length c)) ]}) ->
            md !! "size" = Some (VInt (Z.of_nat (length c))) /\
            md !! "extension" = Some (VStr (file_ext str_lower filename)) /\
            md !! "mime_type" = Some (VStr mime)).
  { intros md ->. split; [|split].
    - rewrite lookup_insert_ne by discriminate.
      rewrite lookup_insert_ne by discriminate. apply lookup_singleton_eq.
    - rewrite lookup_insert_ne by discriminate. apply lookup_insert_eq.
    - apply lookup_insert_eq. }
  destruct (Z.of_nat (length c) <? 1024) eqn:Hmin.
  - apply Z.ltb_lt in Hmin. split.
    + cbn [fst]. split; [discriminate | intros (_ & H & _); lia].
    + intros [|]; cbn [fst]; [discriminate|]. intros _. split; [reflexivity|].
      exists mime. eexists. split; [reflexivity|]. split; [reflexivity|].
      now apply Hmd.
  - apply Z.ltb_ge in Hmin.
    destruct (endswith (last_n 32 c) term_mdat || endswith (last_n 32 c) term_moov)
      eqn:Hterm; cbn [negb fst].
    + split; [split; [intros _; repeat split; lia | reflexivity]|].
      intros [|] _; (split; [reflexivity|]); exists mime; eexists;
        (split; [reflexivity|]); (split; [reflexivity|]); now apply Hmd.
    + split; [split; [discriminate | intros (_ & _ & H); discriminate]|].
      intros [|]; cbn [fst]; [discriminate|]. intros _. split; [reflexivity|].
      exists mime. eexists. split; [reflexivity|]. split; [reflexivity|].
      now apply Hmd.
Qed.

(** X11. For the function defined as [validate_video_file], strict
    validation is the lenient one with two more checks: a file passes it
    exactly when it passes the lenient validation, is at least 1024 bytes
    long and has [mdat] or [moov] at the end of its last 32 bytes. An
    accepted file comes with no reason and with a metadata dictionary
    that holds its size, the extension of its name, from the last dot on,
    as [str.lower()] gives it, and the MIME type libmagic named for its
    first 2048 bytes. *)
Theorem validate_video_file_modes
    (str_lower : string -> string) (magic : bytes -> MagicResult)
    (content : bytes) (filename : string) :
  (fst (fst (validate_video_file_wrapped str_lower magic content filename true)) = true <->
   fst (fst (validate_video_file_wrapped str_lower magic content filename false)) = true /\
   (1024 <= length content)%nat /\
   exists pre,
     drop (length content - 32) content = pre ++ [x6d; x64; x61; x74] \/
     drop (length content - 32) content = pre ++ [x6d; x6f; x6f; x76]) /\
  (forall strict,
     fst (fst (validate_video_file_wrapped str_lower magic content filename strict)) = true ->
     exists mime md stem ext,
       validate_video_file_wrapped str_lower magic content filename strict = (true, "", md) /\
       magic (take 2048 content) = MimeType mime /\
       filename = stem +:+ String "." ext /\
       ~ In "."%char (list_ascii_of_string ext) /\
       md !! "size" = Some (VInt (Z.of_nat (length content))) /\
       md !! "extension" = Some (VStr (str_lower (String "." ext))) /\
       md !! "mime_type" = Some (VStr mime)).
Proof.
  destruct (validate_video_file_cases str_lower magic content filename)
    as [Hmodes Hacc].
  assert (Hterm : (endswith (last_n 32 content) term_mdat
                   || endswith (last_n 32 content) term_moov) = true <->
                  exists pre,
                    drop (length content - 32) content = pre ++ [x6d; x64; x61; x74] \/
                    drop (length content - 32) content = pre ++ [x6d; x6f; x6f; x76]).
  { rewrite orb_true_iff, !endswith_iff. unfold last_n, term_mdat, term_moov.
    split.
    - intros [[pre H] | [pre H]]; exists pre; [left | right]; exact H.
    - intros [pre [H | H]]; [left | right]; exists pre; exact H. }
  split.
  - rewrite Hmodes, Hterm. reflexivity.
  - intros strict H.
    destruct (Hacc strict H) as (Hext & mime & md & E & Hm & Hsize & Hx & Hmime).
    destruct (file_ext_split str_lower filename Hext) as (stem & ext & Hf & Hno & Hs).
    exists mime, md, stem, ext. rewrite <- Hs. auto 10.
Qed.

End UploadValidationMore.

(** ** Colour codes *)

Section ColourCodes.
Import Py Runtime Colors ColourForms.

Variable str_upper : text -> text.

Lemma is_hex_upper_range (c : N) :
  is_hex_upper c = true <-> upper_hex_digit c.
Proof.
  unfold is_hex_upper, upper_hex_digit.
  rewrite orb_true_iff, !andb_true_iff, !N.leb_le. tauto.
Qed.

Lemma upper_hex_digit_ascii (c : N) : upper_hex_digit c -> (c < 128)%N.
Proof. unfold upper_hex_digit. lia. Qed.

Lemma upper_cp_fixes (c : N) : upper_hex_digit c -> upper_cp c = c.
Proof.
  unfold upper_hex_digit, upper_cp. intros H.
  destruct ((97 <=? c) && (c <=? 122))%N eqn:E; [|reflexivity].
  apply andb_true_iff in E as [E1 E2]. apply N.leb_le in E1, E2. lia.
Qed.

Lemma hex_digit_upper (x : N) :
  hex_digit x -> (x < 128)%N /\ is_hex_upper (upper_cp x) = true.
Proof.
  unfold hex_digit. intros H. split; [lia|].
  apply is_hex_upper_range. unfold upper_hex_digit, upper_cp.
  destruct ((97 <=? x) && (x <=? 122))%N eqn:E.
  - apply andb_true_iff in E as [E1 E2]. apply N.leb_le in E1, E2. lia.
  - apply andb_false_iff in E as [E | E]; apply N.leb_gt in E; lia.
Qed.

Lemma match_hex6_normal (s : text) :
  length s = 7%nat -> match_hex6 s = true -> normal_colour s.
Proof.
  intros Hlen Hm.
  destruct s as [|h [|a [|b [|c [|d [|e [|f rest]]]]]]]; try discriminate.
  destruct rest; [|discriminate]. unfold match_hex6 in Hm.
  repeat (apply andb_true_iff in Hm as [Hm ?]).
  apply N.eqb_eq in Hm. subst h.
  exists a, b, c, d, e, f. unfold hash.
  repeat split; try reflexivity; now apply is_hex_upper_range.
Qed.

Lemma normal_colour_ascii (s : text) :
  normal_colour s -> Forall (fun c => (c < 128)%N) s /\ ascii_upper s = s.
Proof.
  intros (a & b & c & d & e & f & -> & Ha & Hb & Hc & Hd & He & Hf). split.
  - repeat constructor; now apply upper_hex_digit_ascii.
  - unfold ascii_upper. cbn [map]. change (upper_cp 35) with 35%N.
    rewrite (upper_cp_fixes a Ha), (upper_cp_fixes b Hb), (upper_cp_fixes c Hc),
      (upper_cp_fixes d Hd), (upper_cp_fixes e He), (upper_cp_fixes f Hf).
    reflexivity.
Qed.

Lemma normal_colour_valid (s : text) :
  normal_colour s -> str_upper s = s ->
  validate_hex_color str_upper s = (true, "", s).
Proof.
  intros (a & b & c & d & e & f & -> & Ha & Hb & Hc & Hd & He & Hf) Hup.
  apply is_hex_upper_range in Ha, Hb, Hc, Hd, He, Hf.
  unfold validate_hex_color. rewrite Hup.
  cbn [length Nat.eqb negb]. change (35 =? hash)%N with true. cbn [negb].
  unfold match_hex6. change (35 =? hash)%N with true.
  rewrite Ha, Hb, Hc, Hd, He, Hf. reflexivity.
Qed.

(** X12. A colour that [validate_hex_color] accepts comes back in normal
    form, [#] and six characters of [0-9A-F], with no error text; and the
    normal form is a fixed point: validating it again returns it
    unchanged. *)
Theorem validate_hex_color_normalises (color : text) (msg : string) (out : text) :
  upper_on_ascii str_upper ->
  validate_hex_color str_upper color = (true, msg, out) ->
  msg = "" /\ normal_colour out /\
  validate_hex_color str_upper out = (true, "", out).
Proof.
  intros Hup E.
  assert (Hfix : forall s, normal_colour s ->
                           validate_hex_color str_upper s = (true, "", s)).
  { intros s Hs. apply normal_colour_valid; [exact Hs|].
    destruct (normal_colour_ascii s Hs) as [Hascii Hsame].
    now rewrite (Hup s Hascii). }
  unfold validate_hex_color in E. revert E.
  destruct color as [|h t]; [discriminate|].
  destruct (negb (h =? hash)%N); [discriminate|].
  destruct (length (str_upper (h :: t)) =? 4)%nat eqn:H4.
  - remember (hash :: double_chars (drop 1 (str_upper (h :: t)))) as s eqn:Hs.
    destruct (match_hex6 s) eqn:Hm; cbn [negb]; [|discriminate].
    intros E. inversion E; subst msg out. clear E.
    assert (Hn : normal_colour s).
    { apply match_hex6_normal; [|exact Hm]. subst s.
      apply Nat.eqb_eq in H4.
      destruct (str_upper (h :: t)) as [|x [|a [|b [|c [|]]]]];
        cbn in H4; try discriminate.
      reflexivity. }
    split; [reflexivity|]. split; [exact Hn | now apply Hfix].
  - destruct (length (str_upper (h :: t)) =? 7)%nat eqn:H7;
      cbn [negb]; [|discriminate].
    destruct (match_hex6 (str_upper (h :: t))) eqn:Hm; cbn [negb]; [|discriminate].
    intros E. inversion E; subst msg. clear E.
    assert (Hn : normal_colour (str_upper (h :: t))).
    { apply match_hex6_normal; [now apply Nat.eqb_eq | exact Hm]. }
    split; [reflexivity|]. split; [exact Hn | now apply Hfix].
Qed.

(** X13. [validate_hex_color] reads the short form [#RGB] as [#RRGGBB]:
    three hexadecimal digits, in either case, give the colour made of
    each digit doubled, in upper case. *)
Theorem validate_hex_color_short_form (a b c : N) :
  upper_on_ascii str_upper ->
  hex_digit a -> hex_digit b -> hex_digit c ->
  validate_hex_color str_upper [35; a; b; c]%N
  = (true, "",
     [35%N; upper_cp a; upper_cp a; upper_cp b; upper_cp b;
      upper_cp c; upper_cp c]) /\
  normal_colour [35%N; upper_cp a; upper_cp a; upper_cp b; upper_cp b;
                 upper_cp c; upper_cp c].
Proof.
  intros Hup Ha Hb Hc.
  destruct (hex_digit_upper a Ha) as [La Ua].
  destruct (hex_digit_upper b Hb) as [Lb Ub].
  destruct (hex_digit_upper c Hc) as [Lc Uc].
  split.
  - unfold validate_hex_color. change (35 =? hash)%N with true. cbn [negb].
    rewrite (Hup [35; a; b; c]%N) by (repeat constructor; assumption).
    unfold ascii_upper. cbn [map length Nat.eqb drop double_chars].
    unfold match_hex6. change (hash =? hash)%N with true.
    rewrite Ua, Ub, Uc. reflexivity.
  - exists (upper_cp a), (upper_cp a), (upper_cp b), (upper_cp b),
      (upper_cp c), (upper_cp c).
    repeat split; now apply is_hex_upper_range.
Qed.

End ColourCodes.

Section ColourWitnesses.
Import Py Runtime Colors ColourForms.

Lemma ascii_upper_on_ascii : upper_on_ascii ascii_upper.
Proof. intros s _. reflexivity. Defined.

(** [#1a2b3c] *)
Lemma validate_hex_color_normalises_witness :
  "" = "" /\ normal_colour [35; 49; 65; 50; 66; 51; 67]%N /\
  validate_hex_color ascii_upper [35; 49; 65; 50; 66; 51; 67]%N
  = (true, "", [35; 49; 65; 50; 66; 51; 67]%N).
Proof.
  apply (validate_hex_color_normalises ascii_upper
           [35; 49; 97; 50; 98; 51; 99]%N "" [35; 49; 65; 50; 66; 51; 67]%N).
  - exact ascii_upper_on_ascii.
  - reflexivity.
Defined.

(** [#fa0] gives [#FFAA00]. *)
Lemma validate_hex_color_short_form_witness :
  validate_hex_color ascii_upper [35; 102; 97; 48]%N
  = (true, "", [35; 70; 70; 65; 65; 48; 48]%N) /\
  normal_colour [35; 70; 70; 65; 65; 48; 48]%N.
Proof.
  apply (validate_hex_color_short_form ascii_upper 102 97 48).
  - exact ascii_upper_on_ascii.
  - unfold hex_digit. lia.
  - unfold hex_digit. lia.
  - unfold hex_digit. lia.
Defined.

End ColourWitnesses.

(** ** [VideoMetadata.validate] *)

Section MetadataValidation.
Import Py Runtime Validators VideoModel Samples.

(** X15. [VideoMetadata.validate()] never answers [True]. An object that
    passes the five checks of the method reaches the call of
    [validate_video_metadata], which raises because the imported name is
    not callable; the [except] clause of the method turns the exception
    into the answer [False] with a validation-error reason. *)
Theorem validate_never_succeeds (m : VideoMetadata) :
  fst (VideoMetadata_validate m) = false /\
  snd (VideoMetadata_validate m) <> "" /\
  VideoMetadata_validate sample_metadata
  = (false, "Validation error: 'PydanticDescriptorProxy' object is not callable").
Proof.
  split; [|split].
  - unfold VideoMetadata_validate.
    repeat match goal with |- context [if ?b then _ else _] => destruct b end;
      reflexivity.
  - unfold VideoMetadata_validate.
    repeat match goal with |- context [if ?b then _ else _] => destruct b end;
      cbn [snd]; try discriminate;
      match goal with |- ?a +:+ ?b <> "" => now apply append_nonempty end.
  - reflexivity.
Qed.

End MetadataValidation.

